(** * Research agent: the planning pipeline of [app.py] and [main.py]

    A shallow embedding of the two Streamlit entry points of the
    repository.  [app.py] is the four-stage pipeline (triage, research,
    editor, critic) with a retrying model client and JSON extraction;
    [main.py] is the earlier three-stage variant that evaluates the triage
    output and wraps the run in a top-level handler.

    Python strings are sequences of Unicode code points, so a [str] is a
    list of code points.  The regular expressions of [extract_json] are
    written as syntax trees and run by a backtracking matcher with the
    priorities of Python's [re] module.  The decoder of [json.loads] is
    written out with what makes it raise: a text that is not JSON, and
    the two limits of the interpreter (nesting depth, digits of an
    integer), which are a parameter of the development. *)

From Stdlib Require Import List NArith Arith Bool String Ascii Lia.
Import ListNotations.

Set Implicit Arguments.
Set Warnings "-register-all".

(* ================================================================== *)
(** * Python strings *)
(* ================================================================== *)

Definition char := N.
Definition str := list char.

(** An ASCII literal of the source, as code points. *)
Definition py (s : string) : str :=
  map N_of_ascii (list_ascii_of_string s).

Definition char_eqb (a b : char) : bool := N.eqb a b.

Fixpoint str_eqb (a b : str) : bool :=
  match a, b with
  | [], [] => true
  | x :: a', y :: b' => char_eqb x y && str_eqb a' b'
  | _, _ => false
  end.

(** [str.isspace] on one code point; also the class [\s] of [re] on [str]
    patterns. *)
Definition is_space (c : char) : bool :=
  ((9 <=? c) && (c <=? 13) || (28 <=? c) && (c <=? 32)
   || (c =? 133) || (c =? 160) || (c =? 5760)
   || (8192 <=? c) && (c <=? 8202)
   || (c =? 8232) || (c =? 8233) || (c =? 8239) || (c =? 8287)
   || (c =? 12288))%N.

(** [s.startswith(p)] *)
Fixpoint startswith (p s : str) : bool :=
  match p, s with
  | [], _ => true
  | x :: p', y :: s' => char_eqb x y && startswith p' s'
  | _ :: _, [] => false
  end.

(** [s.lstrip()], [s.rstrip()] and [s.strip()] without argument. *)
Fixpoint lstrip (s : str) : str :=
  match s with
  | c :: s' => if is_space c then lstrip s' else s
  | [] => []
  end.

Definition rstrip (s : str) : str := rev (lstrip (rev s)).

Definition strip (s : str) : str := rstrip (lstrip s).

(** [s.replace(a, b)] for one-character [a] and [b]. *)
Definition replace_char (a b : char) (s : str) : str :=
  map (fun c => if char_eqb c a then b else c) s.

(** The truth value of a string: [not text] is [true] on the empty one. *)
Definition truthy (s : str) : bool :=
  match s with [] => false | _ :: _ => true end.

(** [a or b] on strings. *)
Definition str_or (a b : str) : str := if truthy a then a else b.

(** ** Case mapping

    [str.title] reads the Unicode character database, which is not part of
    the repository.  It is taken as a parameter whose ASCII range is fixed
    by the three laws. *)

Definition is_ascii_upper (c : char) : bool := ((65 <=? c) && (c <=? 90))%N.
Definition is_ascii_lower (c : char) : bool := ((97 <=? c) && (c <=? 122))%N.
Definition is_ascii_letter (c : char) : bool :=
  is_ascii_upper c || is_ascii_lower c.

Definition ascii_lower (c : char) : char :=
  if is_ascii_upper c then (c + 32)%N else c.
Definition ascii_upper (c : char) : char :=
  if is_ascii_lower c then (c - 32)%N else c.

Class CaseData := {
  is_cased : char -> bool;
  lower_full : char -> str;
  title_full : char -> str;
  is_cased_ascii : forall c, (c < 128)%N -> is_cased c = is_ascii_letter c;
  lower_full_ascii : forall c, (c < 128)%N -> lower_full c = [ascii_lower c];
  title_full_ascii : forall c, (c < 128)%N -> title_full c = [ascii_upper c]
}.

#[program] Instance ascii_case : CaseData := {|
  is_cased c := if (c <? 128)%N then is_ascii_letter c else false;
  lower_full c := if (c <? 128)%N then [ascii_lower c] else [c];
  title_full c := if (c <? 128)%N then [ascii_upper c] else [c]
|}.
Next Obligation.
  intros; match goal with H : (_ < _)%N |- _ => apply N.ltb_lt in H; now rewrite H end.
Qed.
Next Obligation.
  intros; match goal with H : (_ < _)%N |- _ => apply N.ltb_lt in H; now rewrite H end.
Qed.
Next Obligation.
  intros; match goal with H : (_ < _)%N |- _ => apply N.ltb_lt in H; now rewrite H end.
Qed.

Section Title.
Context {U : CaseData}.

(** [str.title]: a cased character that follows a cased one is
    lower-cased, every other character is title-cased. *)
Fixpoint title_from (previous_is_cased : bool) (s : str) : str :=
  match s with
  | [] => []
  | c :: s' =>
      (if previous_is_cased then lower_full c else title_full c)
        ++ title_from (is_cased c) s'
  end.

Definition title (s : str) : str := title_from false s.
End Title.

(* ================================================================== *)
(** * Regular expressions with the priorities of [re] *)
(* ================================================================== *)

Module Re.

Inductive greed := Greedy | Lazy.

Inductive regex :=
| Eps
| Chr (c : char)
| Cls (p : char -> bool)
| Seq (r1 r2 : regex)
| Alt (r1 r2 : regex)
| Star (g : greed) (r : regex)
| Group (r : regex).

(** [.] under [re.DOTALL]. *)
Definition Any : regex := Cls (fun _ => true).
(** [\s] *)
Definition Space : regex := Cls is_space.
(** [(?:r)?] *)
Definition Opt (r : regex) : regex := Alt r Eps.

Fixpoint Lit (s : str) : regex :=
  match s with
  | [] => Eps
  | c :: s' => Seq (Chr c) (Lit s')
  end.

Fixpoint Cat (rs : list regex) : regex :=
  match rs with
  | [] => Eps
  | r :: rs' => Seq r (Cat rs')
  end.

Section Matcher.
(** The answer of a successful match. *)
Variable R : Type.

(** What is left to match: it receives the rest of the text and the
    group. *)
Definition cont := str -> option str -> option R.

(** A repetition goes round again only after an iteration that
    consumed something. *)
Definition progress (s : str) (k : cont) : cont :=
  fun s' cap' => if List.length s' <? List.length s then k s' cap' else None.

(** [r*]: one more iteration first, the rest of the pattern when that
    fails. *)
Fixpoint star_greedy (step : str -> option str -> cont -> option R)
         (k : cont) (n : nat) (s : str) (cap : option str) : option R :=
  match n with
  | O => k s cap
  | S n' =>
      match step s cap (progress s (star_greedy step k n')) with
      | Some a => Some a
      | None => k s cap
      end
  end.

(** [r*?]: the rest of the pattern first, one more iteration when that
    fails. *)
Fixpoint star_lazy (step : str -> option str -> cont -> option R)
         (k : cont) (n : nat) (s : str) (cap : option str) : option R :=
  match n with
  | O => k s cap
  | S n' =>
      match k s cap with
      | Some a => Some a
      | None => step s cap (progress s (star_lazy step k n'))
      end
  end.

(** [exec r s cap k]: match [r] at the head of [s], the group holding
    [cap] so far, and hand the rest of the text and the group to [k].
    Alternatives are tried in priority order and the first success
    wins. *)
Fixpoint exec (r : regex) (s : str) (cap : option str) (k : cont)
         {struct r} : option R :=
  match r with
  | Eps => k s cap
  | Chr c =>
      match s with
      | x :: s' => if char_eqb x c then k s' cap else None
      | [] => None
      end
  | Cls p =>
      match s with
      | x :: s' => if p x then k s' cap else None
      | [] => None
      end
  | Seq r1 r2 => exec r1 s cap (fun s' cap' => exec r2 s' cap' k)
  | Alt r1 r2 =>
      match exec r1 s cap k with
      | Some a => Some a
      | None => exec r2 s cap k
      end
  | Star Greedy r1 => star_greedy (exec r1) k (List.length s) s cap
  | Star Lazy r1 => star_lazy (exec r1) k (List.length s) s cap
  | Group r1 =>
      exec r1 s cap
        (fun s' _ =>
           k s' (Some (firstn (List.length s - List.length s') s)))
  end.
End Matcher.

(** A match object, reduced to its group 1. *)
Definition match_at (r : regex) (s : str) : option (option str) :=
  exec r s None (fun _ cap => Some cap).

(** [re.search]: the leftmost start position at which the pattern
    matches. *)
Fixpoint search (r : regex) (s : str) : option (option str) :=
  match match_at r s with
  | Some m => Some m
  | None =>
      match s with
      | [] => None
      | _ :: s' => search r s'
      end
  end.

End Re.

(* ================================================================== *)
(** * [json.loads] *)
(* ================================================================== *)

Module Json.

(** The values [json.loads] builds.  A number keeps its lexeme, which
    fixes the [int] or [float] it denotes; an object is a [dict], kept in
    insertion order with one entry per key. *)
Inductive json :=
| JNull
| JBool (b : bool)
| JNumber (lexeme : str)
| JString (s : str)
| JArray (items : list json)
| JObject (members : list (str * json)).

Definition dict := list (str * json).

(** [d.get(k)] *)
Fixpoint dict_get (d : dict) (k : str) : option json :=
  match d with
  | [] => None
  | (k', v) :: d' => if str_eqb k' k then Some v else dict_get d' k
  end.

(** [d[k] = v]: an existing key keeps its place and takes the new
    value. *)
Fixpoint dict_set (d : dict) (k : str) (v : json) : dict :=
  match d with
  | [] => [(k, v)]
  | (k', v') :: d' =>
      if str_eqb k' k then (k', v) :: d' else (k', v') :: dict_set d' k v
  end.

(** [dict(pairs)] *)
Definition dict_of_pairs (pairs : list (str * json)) : dict :=
  fold_left (fun d kv => dict_set d (fst kv) (snd kv)) pairs [].

Inductive presult (A : Type) :=
| Parsed (a : A) (rest : str)
| Invalid
| OutOfFuel.
Arguments Parsed {A} a rest.
Arguments Invalid {A}.
Arguments OutOfFuel {A}.

(** The whitespace of the decoder: space, tab, line feed, carriage
    return. *)
Definition is_ws (c : char) : bool :=
  ((c =? 32) || (c =? 9) || (c =? 10) || (c =? 13))%N.

Fixpoint skip_ws (s : str) : str :=
  match s with
  | c :: s' => if is_ws c then skip_ws s' else s
  | [] => []
  end.

Definition is_digit (c : char) : bool := ((48 <=? c) && (c <=? 57))%N.

Definition hex_digit (c : char) : option N :=
  (if (48 <=? c) && (c <=? 57) then Some (c - 48)
   else if (97 <=? c) && (c <=? 102) then Some (c - 87)
   else if (65 <=? c) && (c <=? 70) then Some (c - 55)
   else None)%N.

Definition hex4 (a b c d : char) : option N :=
  match hex_digit a, hex_digit b, hex_digit c, hex_digit d with
  | Some x, Some y, Some z, Some w =>
      Some (((x * 16 + y) * 16 + z) * 16 + w)%N
  | _, _, _, _ => None
  end.

(** The table [BACKSLASH] of the decoder. *)
Definition backslash (e : char) : option char :=
  (if e =? 34 then Some 34          (* quote *)
   else if e =? 92 then Some 92     (* backslash *)
   else if e =? 47 then Some 47     (* slash *)
   else if e =? 98 then Some 8      (* b *)
   else if e =? 102 then Some 12    (* f *)
   else if e =? 110 then Some 10    (* n *)
   else if e =? 114 then Some 13    (* r *)
   else if e =? 116 then Some 9     (* t *)
   else None)%N.

Definition is_high_surrogate (u : N) : bool :=
  ((55296 <=? u) && (u <=? 56319))%N.
Definition is_low_surrogate (u : N) : bool :=
  ((56320 <=? u) && (u <=? 57343))%N.
Definition join_surrogates (hi lo : N) : N :=
  (65536 + ((hi - 55296) * 1024 + (lo - 56320)))%N.

(** [scanstring] in strict mode, from just after the opening quote; [acc]
    holds the characters read so far, last first. *)
Fixpoint scanstring (acc : str) (s : str) : option (str * str) :=
  match s with
  | [] => None
  | c :: r =>
      if (c =? 34)%N then Some (rev acc, r)
      else if (c =? 92)%N then
        match r with
        | [] => None
        | e :: r1 =>
            if (e =? 117)%N then
              match r1 with
              | a :: b :: c4 :: d :: r2 =>
                  match hex4 a b c4 d with
                  | None => None
                  | Some uni =>
                      match r2 with
                      | bs :: u :: a' :: b' :: c' :: d' :: r3 =>
                          if is_high_surrogate uni
                             && ((bs =? 92) && (u =? 117))%N then
                            match hex4 a' b' c' d' with
                            | None => None
                            | Some lo =>
                                if is_low_surrogate lo
                                then scanstring
                                       (join_surrogates uni lo :: acc) r3
                                else scanstring (uni :: acc) r2
                            end
                          else scanstring (uni :: acc) r2
                      | _ => scanstring (uni :: acc) r2
                      end
                  end
              | _ => None
              end
            else
              match backslash e with
              | Some ch => scanstring (ch :: acc) r1
              | None => None
              end
        end
      else if (c <? 32)%N then None
      else scanstring (c :: acc) r
  end.

(** The longest run of digits at the head of [s]. *)
Fixpoint span_digits (s : str) : str * str :=
  match s with
  | c :: s' =>
      if is_digit c
      then let (ds, rest) := span_digits s' in (c :: ds, rest)
      else ([], s)
  | [] => ([], [])
  end.

(** The integer part: an optional minus sign, then a single zero or a
    digit from 1 to 9 followed by any digits. *)
Definition match_int (s : str) : option (str * str) :=
  let (sign, s1) :=
    match s with
    | c :: s' => if (c =? 45)%N then ([c], s') else ([], s)
    | [] => ([], s)
    end in
  match s1 with
  | c :: s2 =>
      if (c =? 48)%N then Some (sign ++ [c], s2)
      else if is_digit c then
        let (ds, rest) := span_digits s2 in Some (sign ++ c :: ds, rest)
      else None
  | [] => None
  end.

(** The optional fraction: a dot and at least one digit. *)
Definition match_frac (s : str) : str * str :=
  match s with
  | c :: s' =>
      if (c =? 46)%N then
        match span_digits s' with
        | ([], _) => ([], s)
        | (ds, rest) => (c :: ds, rest)
        end
      else ([], s)
  | [] => ([], s)
  end.

(** The optional exponent: [e] or [E], an optional sign, at least one
    digit. *)
Definition match_exp (s : str) : str * str :=
  match s with
  | e :: s' =>
      if ((e =? 101) || (e =? 69))%N then
        let (sign, s1) :=
          match s' with
          | c :: s'' =>
              if ((c =? 45) || (c =? 43))%N then ([c], s'') else ([], s')
          | [] => ([], s')
          end in
        match span_digits s1 with
        | ([], _) => ([], s)
        | (ds, rest) => (e :: sign ++ ds, rest)
        end
      else ([], s)
  | [] => ([], s)
  end.

(** [NUMBER_RE.match] *)
Definition match_number (s : str) : option (str * str) :=
  match match_int s with
  | None => None
  | Some (i, s1) =>
      let (f, s2) := match_frac s1 in
      let (e, s3) := match_exp s2 in
      Some (i ++ f ++ e, s3)
  end.

(** [s[idx:idx+len(w)] == w], with the rest of the text after [w]. *)
Fixpoint eat (w s : str) : option str :=
  match w, s with
  | [], _ => Some s
  | x :: w', y :: s' => if char_eqb x y then eat w' s' else None
  | _ :: _, [] => None
  end.

(** What the interpreter allows the decoder beyond the grammar.  They are
    properties of the interpreter, not of the script, so they are left
    open here. *)
Class Limits := {
  (** The containers (objects and arrays) that may be open at once: the
      decoder enters a recursive call for each of them, and the interpreter
      raises [RecursionError] when none is left. *)
  nesting_limit : nat;
  (** [sys.get_int_max_str_digits()]: zero when there is no limit. *)
  int_max_str_digits : nat
}.

Section Decoder.
Context {L : Limits}.

(** A number is a [float] when it has a fraction or an exponent, an [int]
    otherwise. *)
Definition is_float (lexeme : str) : bool :=
  existsb (fun c => ((c =? 46) || (c =? 101) || (c =? 69))%N) lexeme.

(** [int(lexeme)] raises [ValueError] on more digits than the interpreter
    converts; texts of 640 digits or fewer are never checked. *)
Definition int_refused (lexeme : str) : bool :=
  let digits := List.length (filter is_digit lexeme) in
  negb (is_float lexeme)
  && (640 <? digits) && (0 <? int_max_str_digits)
  && (int_max_str_digits <? digits).

Definition keyword (s : str) : presult json :=
  match eat (py "null") s with
  | Some r => Parsed JNull r
  | None =>
  match eat (py "true") s with
  | Some r => Parsed (JBool true) r
  | None =>
  match eat (py "false") s with
  | Some r => Parsed (JBool false) r
  | None =>
  match match_number s with
  | Some (lexeme, r) =>
      if int_refused lexeme then Invalid else Parsed (JNumber lexeme) r
  | None =>
  match eat (py "NaN") s with
  | Some r => Parsed (JNumber (py "NaN")) r
  | None =>
  match eat (py "Infinity") s with
  | Some r => Parsed (JNumber (py "Infinity")) r
  | None =>
  match eat (py "-Infinity") s with
  | Some r => Parsed (JNumber (py "-Infinity")) r
  | None => Invalid
  end end end end end end end.

(** [scan_once], [JSONObject] and [JSONArray].  [members] stands just
    after the opening quote of a key, [elements] at the start of a
    value.  [depth] counts the containers open around the value; [Invalid]
    stands for every exception of the decoder. *)
Fixpoint scan_once (fuel depth : nat) (s : str) : presult json :=
  match fuel with
  | O => OutOfFuel
  | S fuel' =>
      match s with
      | [] => Invalid
      | c :: r =>
          if (c =? 34)%N then
            match scanstring [] r with
            | Some (v, rest) => Parsed (JString v) rest
            | None => Invalid
            end
          else if (c =? 123)%N then
            if nesting_limit <=? depth then Invalid
            else
              match skip_ws r with
              | c1 :: r1 =>
                  if (c1 =? 125)%N then Parsed (JObject []) r1
                  else if (c1 =? 34)%N then members fuel' (S depth) [] r1
                  else Invalid
              | [] => Invalid
              end
          else if (c =? 91)%N then
            if nesting_limit <=? depth then Invalid
            else
              match skip_ws r with
              | c1 :: r1 =>
                  if (c1 =? 93)%N then Parsed (JArray []) r1
                  else elements fuel' (S depth) [] (c1 :: r1)
              | [] => Invalid
              end
          else keyword s
      end
  end

with members (fuel depth : nat) (pairs : list (str * json)) (s : str)
     : presult json :=
  match fuel with
  | O => OutOfFuel
  | S fuel' =>
      match scanstring [] s with
      | None => Invalid
      | Some (key, s1) =>
          match skip_ws s1 with
          | colon :: s2 =>
              if (colon =? 58)%N then
                match scan_once fuel' depth (skip_ws s2) with
                | Parsed v s3 =>
                    let pairs' := pairs ++ [(key, v)] in
                    match skip_ws s3 with
                    | c :: s4 =>
                        if (c =? 125)%N
                        then Parsed (JObject (dict_of_pairs pairs')) s4
                        else if (c =? 44)%N then
                          match skip_ws s4 with
                          | q :: s5 =>
                              if (q =? 34)%N
                              then members fuel' depth pairs' s5
                              else Invalid
                          | [] => Invalid
                          end
                        else Invalid
                    | [] => Invalid
                    end
                | Invalid => Invalid
                | OutOfFuel => OutOfFuel
                end
              else Invalid
          | [] => Invalid
          end
      end
  end

with elements (fuel depth : nat) (values : list json) (s : str)
     : presult json :=
  match fuel with
  | O => OutOfFuel
  | S fuel' =>
      match scan_once fuel' depth s with
      | Parsed v s1 =>
          let values' := values ++ [v] in
          match skip_ws s1 with
          | c :: s2 =>
              if (c =? 93)%N then Parsed (JArray values') s2
              else if (c =? 44)%N
              then elements fuel' depth values' (skip_ws s2)
              else Invalid
          | [] => Invalid
          end
      | Invalid => Invalid
      | OutOfFuel => OutOfFuel
      end
  end.

(** [JSONDecoder.decode]: one value between optional whitespace, and
    nothing after it. *)
Definition decode (fuel : nat) (s : str) : presult json :=
  match scan_once fuel 0 (skip_ws s) with
  | Parsed v rest =>
      match skip_ws rest with
      | [] => Parsed v []
      | _ :: _ => Invalid
      end
  | Invalid => Invalid
  | OutOfFuel => OutOfFuel
  end.

(** Calls nest at most twice per character, so this fuel is never
    exhausted ([loads_fuel] below). *)
Definition fuel_for (s : str) : nat := 2 * List.length s + 2.

(** [json.loads(s)] on a [str]: [None] stands for a raised exception, which
    is a [JSONDecodeError] on a text that is not JSON, a [RecursionError]
    on one nested too deep, a [ValueError] on an integer of too many
    digits; all three are of class [Exception].  A text that starts with a
    byte order mark is refused. *)
Definition loads (s : str) : option json :=
  if startswith [65279%N] s then None
  else
    match decode (fuel_for s) s with
    | Parsed v _ => Some v
    | _ => None
    end.
End Decoder.

End Json.
Export Json (json (..)).

(* ================================================================== *)
(** * Exceptions, events and the run monad *)
(* ================================================================== *)

(** The exceptions a run can meet: the [ValidationError] of pydantic, the
    [TypeError] of a call [f( **v )] on a value that is not a mapping, and
    [Error] for every other subclass of [Exception], such as what the model
    service or [eval] raises. *)
Inductive Exception :=
| Error (msg : str)
| ValidationError (msg : str)
| TypeError (msg : str).

(** [str(e)] *)
Definition exn_str (e : Exception) : str :=
  match e with
  | Error m => m
  | ValidationError m => m
  | TypeError m => m
  end.

Definition is_ValidationError (e : Exception) : bool :=
  match e with ValidationError _ => true | _ => false end.

Inductive Outcome (A : Type) :=
| Return (a : A)
| Raised (e : Exception).
Arguments Return {A} a.
Arguments Raised {A} e.

Module Models.
Record ResearchPlan := {
  topic : str;
  search_queries : list str;
  focus_areas : list str
}.

(** One entry of [collected_facts]. *)
Record Finding := {
  fact : str;
  source : str;
  timestamp : str
}.

Record GeminiAgent := {
  name : str;
  instructions : str;
  model_name : str
}.
End Models.
Export Models.

(** What a run does to the outside: calls of the model service, sleeps,
    evaluation of text as Python, and the two displays the specification
    speaks of.  The other display calls only render and are left out. *)
Inductive Event :=
| Generate (model : str) (full_prompt : str)
| Sleep (seconds : nat)
| Eval (source : str)
| StJson (plan : ResearchPlan)
| StError (text : str).

(** The outside of the program.  Each answer may depend on everything that
    happened before it. *)
Record Env := {
  (** [GenerativeModel(model).generate_content(prompt)] followed by the read
      of [.text]: the text, [None] when there is none, or an exception. *)
  service : list Event -> str -> str -> Outcome (option str);
  (** [datetime.now().strftime("%H:%M:%S")] *)
  now : list Event -> str;
  (** [eval(source)] when the evaluation comes back and has done nothing
      else: the value, seen as JSON-like data, or an exception of class
      [Exception].  See [Main.eval]. *)
  py_eval : list Event -> str -> Outcome json;
  (** How an f-string renders a list of strings. *)
  repr_list : list str -> str
}.

(** Conversion of a value to a [str] field is the business of pydantic,
    whose versions differ on numbers; every version takes a string as it
    is. *)
Class Pydantic := {
  str_validate : json -> option str;
  validation_message : Json.dict -> str;
  str_validate_str : forall s, str_validate (JString s) = Some s
}.

(** The strict reading: only a string is a string. *)
#[program] Instance pydantic_strict : Pydantic := {|
  str_validate v := match v with JString s => Some s | _ => None end;
  validation_message _ := py "validation error for ResearchPlan"
|}.

Section Monad.
(** [St] is the session state of the variant at hand. *)
Variable St : Type.

Definition M (A : Type) : Type :=
  St -> list Event -> Outcome A * St * list Event.

Definition ret {A} (a : A) : M A := fun st tr => (Return a, st, tr).

Definition bind {A B} (c : M A) (k : A -> M B) : M B :=
  fun st tr =>
    match c st tr with
    | (Return a, st', tr') => k a st' tr'
    | (Raised e, st', tr') => (Raised e, st', tr')
    end.

Definition raise {A} (e : Exception) : M A :=
  fun st tr => (Raised e, st, tr).

(** [try: c  except E as e: handler e], where [catches] tells the
    exceptions of class [E]. *)
Definition try_except {A} (c : M A) (catches : Exception -> bool)
           (handler : Exception -> M A) : M A :=
  fun st tr =>
    match c st tr with
    | (Return a, st', tr') => (Return a, st', tr')
    | (Raised e, st', tr') =>
        if catches e then handler e st' tr' else (Raised e, st', tr')
    end.

Definition emit (e : Event) : M unit :=
  fun st tr => (Return tt, st, tr ++ [e]).

Definition modify (f : St -> St) : M unit :=
  fun st tr => (Return tt, f st, tr).

Definition history : M (list Event) := fun st tr => (Return tr, st, tr).

Definition lift_outcome {A} (o : Outcome A) : M A :=
  fun st tr => (o, st, tr).
End Monad.

Arguments ret {St A} a.
Arguments bind {St A B} c k.
Arguments raise {St A} e.
Arguments try_except {St A} c catches handler.
Arguments emit {St} e.
Arguments modify {St} f.
Arguments history {St}.
Arguments lift_outcome {St A} o.

Declare Scope run_scope.
Delimit Scope run_scope with run.
Notation "x <- c ;; k" := (bind c (fun x => k))
  (at level 61, c at next level, right associativity) : run_scope.
Notation "c ;;; k" := (bind c (fun _ => k))
  (at level 61, right associativity) : run_scope.

(** [except Exception] *)
Definition any_exception (e : Exception) : bool := true.

(* ================================================================== *)
(** * The data models and their validation *)
(* ================================================================== *)

Definition nl : str := [10%N].

(** The name of the type of a value, as error messages print it. *)
Definition is_float_lexeme (l : str) : bool :=
  existsb (fun c => ((c =? 46) || (c =? 101) || (c =? 69)
                     || (c =? 78) || (c =? 73))%N) l.

Definition type_name (v : json) : str :=
  match v with
  | JNull => py "NoneType"
  | JBool _ => py "bool"
  | JNumber l => if is_float_lexeme l then py "float" else py "int"
  | JString _ => py "str"
  | JArray _ => py "list"
  | JObject _ => py "dict"
  end.

Section Validation.
Context {P : Pydantic}.

Fixpoint validate_strs (vs : list json) : option (list str) :=
  match vs with
  | [] => Some []
  | v :: vs' =>
      match str_validate v, validate_strs vs' with
      | Some x, Some xs => Some (x :: xs)
      | _, _ => None
      end
  end.

(** A field [list[str]] *)
Definition validate_list (v : json) : option (list str) :=
  match v with
  | JArray vs => validate_strs vs
  | _ => None
  end.

(** Validation of the keyword arguments against [ResearchPlan]: the
    three fields are required, other keys are ignored. *)
Definition validate_plan (d : Json.dict) : option ResearchPlan :=
  match Json.dict_get d (py "topic"),
        Json.dict_get d (py "search_queries"),
        Json.dict_get d (py "focus_areas") with
  | Some t, Some q, Some f =>
      match str_validate t, validate_list q, validate_list f with
      | Some t', Some q', Some f' =>
          Some {| topic := t'; search_queries := q'; focus_areas := f' |}
      | _, _, _ => None
      end
  | _, _, _ => None
  end.

(** [ResearchPlan( **v )] *)
Definition new_ResearchPlan (v : json) : Outcome ResearchPlan :=
  match v with
  | JObject d =>
      match validate_plan d with
      | Some plan => Return plan
      | None => Raised (ValidationError (validation_message d))
      end
  | _ =>
      Raised (TypeError
                (py "__main__.ResearchPlan() argument after ** must be a mapping, not "
                   ++ type_name v))
  end.
End Validation.

(** The dictionary both variants fall back to. *)
Definition fallback_dict (topic : str) : json :=
  JObject [ (py "topic", JString topic);
            (py "search_queries", JArray [JString topic]);
            (py "focus_areas", JArray [JString (py "General overview")]) ].

Definition gemini_flash : str := py "gemini-2.5-flash".

(* ================================================================== *)
(** * [app.py] *)
(* ================================================================== *)

Module App.

(** ** Helpers *)

(** The pattern of the fenced block: three backticks, an optional [json]
    tag, whitespace, a group from an opening brace over as few characters
    as possible to a closing brace, whitespace, three backticks. *)
Definition fence_re : Re.regex :=
  Re.Cat [ Re.Lit (py "```");
           Re.Opt (Re.Lit (py "json"));
           Re.Star Re.Greedy Re.Space;
           Re.Group (Re.Cat [ Re.Chr 123%N;
                              Re.Star Re.Lazy Re.Any;
                              Re.Chr 125%N ]);
           Re.Star Re.Greedy Re.Space;
           Re.Lit (py "```") ].

(** The pattern of the brace block: a group from an opening brace over
    as many characters as possible to a closing brace. *)
Definition brace_re : Re.regex :=
  Re.Group (Re.Cat [ Re.Chr 123%N;
                     Re.Star Re.Greedy Re.Any;
                     Re.Chr 125%N ]).

(** [m.group(1)]; both patterns set their group on every match. *)
Definition group1 (m : option str) : str :=
  match m with Some g => g | None => [] end.

Definition extract_json (text : str) : option str :=
  if negb (truthy text) then None
  else
    match Re.search fence_re text with
    | Some fence => Some (group1 fence)
    | None =>
        match Re.search brace_re text with
        | Some brace => Some (group1 brace)
        | None => None
        end
    end.

(** [extract_json(plan_text) or plan_text] *)
Definition payload_of (plan_text : str) : str :=
  match extract_json plan_text with
  | Some p => str_or p plan_text
  | None => plan_text
  end.

(** Whatever [json.loads] returns is returned, mapping or not. *)
Definition safe_json_parse {L : Json.Limits} (plan_text : str)
           (fallback : json) : json :=
  match Json.loads (payload_of plan_text) with
  | Some v => v
  | None => fallback
  end.

(** ** Session state *)

Record Session := {
  conversation_id : str;
  collected_facts : list Finding;
  research_done : bool;
  report_result : option str;
  critique_result : option str
}.

Definition set_collected_facts (v : list Finding) (s : Session) :=
  {| conversation_id := conversation_id s; collected_facts := v;
     research_done := research_done s; report_result := report_result s;
     critique_result := critique_result s |}.
Definition set_research_done (v : bool) (s : Session) :=
  {| conversation_id := conversation_id s;
     collected_facts := collected_facts s;
     research_done := v; report_result := report_result s;
     critique_result := critique_result s |}.
Definition set_report_result (v : option str) (s : Session) :=
  {| conversation_id := conversation_id s;
     collected_facts := collected_facts s;
     research_done := research_done s; report_result := v;
     critique_result := critique_result s |}.
Definition set_critique_result (v : option str) (s : Session) :=
  {| conversation_id := conversation_id s;
     collected_facts := collected_facts s;
     research_done := research_done s; report_result := report_result s;
     critique_result := v |}.

(** ** Agents *)

Definition triage_agent : GeminiAgent := {|
  name := py "Triage Agent";
  instructions :=
    py "You are the coordinator. Given a topic, produce a research plan as pure JSON only."
    ++ nl ++
    py "Keys: topic (string), search_queries (3-5 items), focus_areas (3-5 items)."
    ++ nl ++
    py "Do not add commentary outside JSON.";
  model_name := gemini_flash
|}.

Definition research_agent : GeminiAgent := {|
  name := py "Research Agent";
  instructions :=
    py "You are a research assistant. Summarize findings in 2-3 short paragraphs, "
    ++ py "under 300 words. Focus on crisp facts, key points, and useful takeaways. "
    ++ py "No fluff. Include bulleted lists if helpful.";
  model_name := gemini_flash
|}.

Definition editor_agent : GeminiAgent := {|
  name := py "Editor Agent";
  instructions :=
    py "You are a senior researcher. Using the notes, write a comprehensive markdown report "
    ++ py "(>= 1000 words, target ~5-10 pages). Include:" ++ nl
    ++ py "- A clear title" ++ nl ++ py "- An outline of sections" ++ nl
    ++ py "- Well-structured headings" ++ nl
    ++ py "- Evidence-backed points" ++ nl
    ++ py "- A 'Sources' section at the end";
  model_name := gemini_flash
|}.

Definition critic_agent : GeminiAgent := {|
  name := py "Critic Agent";
  instructions :=
    py "You are a critical reviewer. Review the provided report for clarity, structure, depth, "
    ++ py "coverage, and factual balance. Suggest improvements and highlight missing points "
    ++ py "in <= 400 words. Return feedback in markdown with bullet points.";
  model_name := gemini_flash
|}.

(** The warning sign and its variation selector, which open the
    diagnostic of a failed call. *)
Definition warning_sign : str := [9888%N; 65039%N].

Section Run.
Variable env : Env.
Context {P : Pydantic} {L : Json.Limits}.

Local Open Scope run_scope.
Let M := M Session.

(** [self.client.generate_content(full_prompt)] and the read of its
    text. *)
Definition generate_content (self : GeminiAgent) (full_prompt : str)
  : M (option str) :=
  h <- history ;;
  emit (Generate (model_name self) full_prompt) ;;;
  lift_outcome (service env h (model_name self) full_prompt).

Definition sleep (seconds : nat) : M unit := emit (Sleep seconds).

(** The loop of [GeminiAgent.run] over the attempts still to make;
    [None] is the [None] a Python function returns when it falls off
    its end. *)
Fixpoint run_loop (self : GeminiAgent) (full_prompt : str)
         (attempts : list nat) : M (option str) :=
  match attempts with
  | [] => ret None
  | attempt :: rest =>
      r <- try_except
             (text <- generate_content self full_prompt ;;
              ret (Some (Some (match text with
                               | Some t => str_or t (py "No response.")
                               | None => py "No response."
                               end))))
             any_exception
             (fun e =>
                if attempt <? 2
                then sleep (2 * (attempt + 1)) ;;; ret None
                else ret (Some (Some (warning_sign ++ py " Error from "
                                        ++ name self ++ py ": "
                                        ++ exn_str e)))) ;;
      match r with
      | Some returned => ret returned
      | None => run_loop self full_prompt rest
      end
  end.

Definition full_prompt_of (self : GeminiAgent) (prompt : str) : str :=
  instructions self ++ nl ++ nl ++ py "User query / task:" ++ nl ++ prompt.

(** [GeminiAgent.run]: the three attempts always end in a [return]
    ([app_run_spec] below), so the text is always there. *)
Definition run (self : GeminiAgent) (prompt : str) : M str :=
  r <- run_loop self (full_prompt_of self prompt) (seq 0 3) ;;
  ret (match r with Some text => text | None => [] end).

Definition source_label : str := py "Gemini (summarized findings)".

(** The prompt of the triage stage. *)
Definition triage_prompt (topic : str) : str :=
  py "Topic: " ++ topic ++ nl ++ py "Return JSON only.".

(** From the triage text to the plan: the fallback dictionary, the
    parse, and the validation under its handler for
    [ValidationError].  Nothing here touches the session or the
    outside. *)
Definition make_plan (topic triage_raw : str) : Outcome ResearchPlan :=
  let fallback_plan := fallback_dict topic in
  let plan_dict := safe_json_parse triage_raw fallback_plan in
  match new_ResearchPlan plan_dict with
  | Return plan => Return plan
  | Raised e =>
      if is_ValidationError e
      then new_ResearchPlan fallback_plan
      else Raised e
  end.

Definition notes_prompt (plan : ResearchPlan) : str :=
  py "Topic: " ++ Models.topic plan ++ nl
  ++ py "Search Queries: " ++ repr_list env (search_queries plan) ++ nl
  ++ py "Focus Areas: " ++ repr_list env (focus_areas plan) ++ nl
  ++ py "Provide concise findings.".

Definition editor_prompt (plan : ResearchPlan) (research_notes : str)
  : str :=
  py "Topic: " ++ Models.topic plan ++ nl ++ nl
  ++ py "Research Notes:" ++ nl ++ research_notes ++ nl ++ nl
  ++ py "Write the full report now.".

(** ** The workflow *)
Definition run_research (topic : str) : M unit :=
  modify (set_collected_facts []) ;;;
  modify (set_research_done false) ;;;
  modify (set_report_result None) ;;;
  modify (set_critique_result None) ;;;
  (* 1) Triage -> Research Plan *)
  triage_raw <- run triage_agent (triage_prompt topic) ;;
  plan <- lift_outcome (make_plan topic triage_raw) ;;
  emit (StJson plan) ;;;
  (* 2) Research Agent -> Notes *)
  research_notes <- run research_agent (notes_prompt plan) ;;
  h <- history ;;
  modify (fun s =>
            set_collected_facts
              (collected_facts s
                 ++ [ {| fact := research_notes;
                         source := source_label;
                         timestamp := now env h |} ]) s) ;;;
  (* 3) Editor Agent -> Long Report *)
  report_text <- run editor_agent (editor_prompt plan research_notes) ;;
  modify (set_report_result (Some report_text)) ;;;
  (* 4) Critic Agent -> Review *)
  critique_text <- run critic_agent report_text ;;
  modify (set_critique_result (Some critique_text)) ;;;
  modify (set_research_done true).

(** The trigger: [if start_button and user_topic: run_research(...)],
    with no handler around the call. *)
Definition trigger (start_button : bool) (user_topic : str) : M unit :=
  if start_button && truthy user_topic
  then run_research user_topic
  else ret tt.
End Run.

(** ** The report tab *)
Section Report.
Context {U : CaseData}.

Definition title_text (user_topic : str) : str :=
  title (str_or user_topic (py "Report")).

(** The name of the download without its extension. *)
Definition report_base_name (user_topic : str) : str :=
  replace_char 32%N 95%N (title_text user_topic).

Definition report_file_name (user_topic : str) : str :=
  report_base_name user_topic ++ py ".md".

Definition critique_file_name (user_topic : str) : str :=
  report_base_name user_topic ++ py "_Critique.md".

(** The tab shows the report and its downloads only under this
    condition. *)
Definition report_shown (s : Session) : bool :=
  research_done s
  && match report_result s with Some r => truthy r | None => false end.
End Report.

End App.

(* ================================================================== *)
(** * [main.py] *)
(* ================================================================== *)

Module Main.

(** This variant keeps no critique. *)
Record Session := {
  conversation_id : str;
  collected_facts : list Finding;
  research_done : bool;
  report_result : option str
}.

Definition set_collected_facts (v : list Finding) (s : Session) :=
  {| conversation_id := conversation_id s; collected_facts := v;
     research_done := research_done s; report_result := report_result s |}.
Definition set_research_done (v : bool) (s : Session) :=
  {| conversation_id := conversation_id s;
     collected_facts := collected_facts s;
     research_done := v; report_result := report_result s |}.
Definition set_report_result (v : option str) (s : Session) :=
  {| conversation_id := conversation_id s;
     collected_facts := collected_facts s;
     research_done := research_done s; report_result := v |}.

Definition research_agent : GeminiAgent := {|
  name := py "Research Agent";
  instructions :=
    py "You are a research assistant. Search the web mentally and summarize findings in 2-3 paragraphs under 300 words. Focus only on core facts, skip fluff.";
  model_name := gemini_flash
|}.

Definition editor_agent : GeminiAgent := {|
  name := py "Editor Agent";
  instructions :=
    py "You are a senior researcher. Write a comprehensive research report (1000+ words, markdown format, 5-10 pages). Include an outline, detailed content, and sources.";
  model_name := gemini_flash
|}.

Definition triage_agent : GeminiAgent := {|
  name := py "Triage Agent";
  instructions :=
    py "You are the coordinator. Given a topic:" ++ nl
    ++ py "1. Create a research plan with:" ++ nl
    ++ py "   - topic: clear statement" ++ nl
    ++ py "   - search_queries: 3-5 search queries" ++ nl
    ++ py "   - focus_areas: 3-5 key aspects" ++ nl
    ++ py "Return structured JSON with {topic, search_queries, focus_areas}."
    ++ nl;
  model_name := gemini_flash
|}.

Section Run.
Variable env : Env.
Context {P : Pydantic}.

Local Open Scope run_scope.
Let M := M Session.

Definition generate_content (self : GeminiAgent) (full_prompt : str)
  : M (option str) :=
  h <- history ;;
  emit (Generate (model_name self) full_prompt) ;;;
  lift_outcome (service env h (model_name self) full_prompt).

(** [GeminiAgent.run]: one call, whose exception goes to the caller. *)
Definition run (self : GeminiAgent) (prompt : str) : M str :=
  let full_prompt :=
    instructions self ++ nl ++ nl ++ py "User query:" ++ nl ++ prompt in
  response <- generate_content self full_prompt ;;
  ret (match response with
       | Some t => str_or t (py "No response.")
       | None => py "No response."
       end).

(** [eval(source)].  The text is run as Python in the scope of the script,
    so nothing in [main.py] bounds what it does.  This definition covers
    the evaluations that come back to [run_research] with a value or with
    an exception of class [Exception], and that touch neither the session
    nor the model service.  An evaluation that calls the agents, stores
    findings, leaves the script ([SystemExit]) or never ends is not
    described by it.  Two things only are stated of [eval] below: that the
    text is handed to it (the event [Eval]), and what follows in a
    scenario where it comes back; every other statement on [main.py] is
    about runs that do not reach it ([skips_eval]). *)
Definition eval (source : str) : M json :=
  h <- history ;;
  emit (Eval source) ;;;
  lift_outcome (py_eval env h source).

(** [save_important_fact(fact, source=None)] *)
Definition save_important_fact (fact : str) (source : option str)
  : M str :=
  h <- history ;;
  modify (fun s =>
            set_collected_facts
              (collected_facts s
                 ++ [ {| Models.fact := fact;
                         Models.source :=
                           match source with
                           | Some src => str_or src (py "Not specified")
                           | None => py "Not specified"
                           end;
                         timestamp := now env h |} ]) s) ;;;
  ret (py "Fact saved: " ++ fact).

Definition run_research (topic : str) : M unit :=
  modify (set_collected_facts []) ;;;
  modify (set_research_done false) ;;;
  modify (set_report_result None) ;;;
  (* Step 1: Triage Agent -> Research Plan *)
  triage_output <- run triage_agent
                     (py "Research this topic thoroughly: " ++ topic) ;;
  research_plan <-
    try_except
      (plan_data <- (if startswith (py "{") (strip triage_output)
                     then eval triage_output
                     else ret (fallback_dict topic)) ;;
       lift_outcome (new_ResearchPlan plan_data))
      any_exception
      (fun _ => lift_outcome (new_ResearchPlan (fallback_dict topic))) ;;
  emit (StJson research_plan) ;;;
  (* Step 2: Research Agent *)
  research_notes <-
    run research_agent
      (py "Topic: " ++ Models.topic research_plan ++ nl
       ++ py "Queries: " ++ repr_list env (search_queries research_plan)
       ++ nl
       ++ py "Focus Areas: " ++ repr_list env (focus_areas research_plan)) ;;
  save_important_fact research_notes (Some (py "Gemini Research")) ;;;
  (* Step 3: Editor Agent -> Report *)
  report_text <-
    run editor_agent
      (py "Topic: " ++ topic ++ nl ++ py "Research Notes:" ++ nl
       ++ research_notes) ;;
  modify (set_report_result (Some report_text)) ;;;
  modify (set_research_done true).

(** The trigger: the run under a handler for every exception. *)
Definition trigger (start_button : bool) (user_topic : str) : M unit :=
  if start_button then
    try_except (run_research user_topic) any_exception
      (fun e =>
         emit (StError (py "Error: " ++ exn_str e)) ;;;
         modify (set_report_result
                   (Some (py "# Research on " ++ user_topic ++ nl ++ nl
                          ++ py "Error: " ++ exn_str e))) ;;;
         modify (set_research_done true))
  else ret tt.
End Run.

(** The name of the download: the topic as typed, spaces replaced. *)
Definition report_file_name (user_topic : str) : str :=
  replace_char 32%N 95%N user_topic ++ py ".md".

End Main.


(* ================================================================== *)
(** * The session state as a dictionary *)
(* ================================================================== *)

(** [st.session_state] before and between runs: a dictionary that may lack
    keys and may hold keys of its own.  The two scripts fill it from
    [defaults] when they start, and [app.py] resets it on request. *)
Module SessionState.

(** The values the two scripts keep in the session. *)
Inductive value :=
| VStr (s : str)
| VFacts (facts : list Finding)
| VBool (b : bool)
| VNone.

(** A dictionary with string keys, in insertion order, one entry per
    key. *)
Definition state := list (str * value).

(** [d.get(k)]; [k in d] is [mem]. *)
Fixpoint lookup (d : state) (k : str) : option value :=
  match d with
  | [] => None
  | (k', v) :: d' => if str_eqb k' k then Some v else lookup d' k
  end.

Definition mem (d : state) (k : str) : bool :=
  match lookup d k with Some _ => true | None => false end.

(** [d[k] = v] *)
Fixpoint assign (d : state) (k : str) (v : value) : state :=
  match d with
  | [] => [(k, v)]
  | (k', v') :: d' =>
      if str_eqb k' k then (k', v) :: d' else (k', v') :: assign d' k v
  end.

(** [list(d.keys())] *)
Definition keys (d : state) : list str := map fst d.

(** [str(uuid.uuid4().hex[:16])], from the 32 hexadecimal digits of the
    identifier drawn by this run of the script. *)
Definition new_conversation_id (uuid_hex : str) : str := firstn 16 uuid_hex.

(** [defaults] of [app.py] *)
Definition app_defaults (uuid_hex : str) : state :=
  [ (py "conversation_id", VStr (new_conversation_id uuid_hex));
    (py "collected_facts", VFacts []);
    (py "research_done", VBool false);
    (py "report_result", VNone);
    (py "critique_result", VNone) ].

(** [defaults] of [main.py] *)
Definition main_defaults (uuid_hex : str) : state :=
  [ (py "conversation_id", VStr (new_conversation_id uuid_hex));
    (py "collected_facts", VFacts []);
    (py "research_done", VBool false);
    (py "report_result", VNone) ].

(** The loop at the start of both scripts:
    [for k, v in defaults.items(): if k not in st.session_state:
    st.session_state[k] = v]. *)
Definition init_session_state (defaults st : state) : state :=
  fold_left (fun st kv =>
               if mem st (fst kv) then st else assign st (fst kv) (snd kv))
            defaults st.

(** The button Clear Session of [app.py]:
    [for k in list(st.session_state.keys()): if k in defaults:
    st.session_state[k] = defaults[k]]. *)
Definition clear_session (defaults st : state) : state :=
  fold_left (fun st k =>
               match lookup defaults k with
               | Some v => assign st k v
               | None => st
               end)
            (keys st) st.

(** The condition of the report tab, on the dictionary:
    [st.session_state.get("research_done") and
    st.session_state.get("report_result")]. *)
Definition value_truthy (v : option value) : bool :=
  match v with
  | Some (VStr s) => truthy s
  | Some (VFacts l) => match l with [] => false | _ :: _ => true end
  | Some (VBool b) => b
  | Some VNone => false
  | None => false
  end.

Definition report_shown (st : state) : bool :=
  value_truthy (lookup st (py "research_done"))
  && value_truthy (lookup st (py "report_result")).

End SessionState.

(* ================================================================== *)
(** * Scenarios *)
(* ================================================================== *)

Module Scenario.

(** A text written with single quotes, each standing for a double
    quote. *)
Definition dq (s : str) : str := replace_char 39%N 34%N s.

Fixpoint join (sep : str) (items : list str) : str :=
  match items with
  | [] => []
  | [x] => x
  | x :: rest => x ++ sep ++ join sep rest
  end.

(** The rendering of a list of plain strings. *)
Definition plain_repr (items : list str) : str :=
  py "[" ++ join (py ", ") (map (fun x => py "'" ++ x ++ py "'") items)
     ++ py "]".

Definition is_triage_prompt (full_prompt : str) : bool :=
  startswith (py "You are the coordinator.") full_prompt.

(** The service answers the triage prompt with [triage] and every other
    prompt with [other]; [eval] yields [evaluated]. *)
Definition answering (triage other : str) (evaluated : Outcome json)
  : Env := {|
  service := fun _ _ full_prompt =>
               if is_triage_prompt full_prompt
               then Return (Some triage) else Return (Some other);
  now := fun _ => py "12:00:00";
  py_eval := fun _ _ => evaluated;
  repr_list := plain_repr
|}.

(** The service is down: every call raises. *)
Definition unavailable : Env := {|
  service := fun _ _ _ => Raised (Error (py "503 Service Unavailable"));
  now := fun _ => py "12:00:00";
  py_eval := fun _ _ => Raised (Error (py "invalid syntax"));
  repr_list := plain_repr
|}.

(** An interpreter with the settings CPython ships: integers of at most
    4300 digits, and a recursion limit of 1000, of which some nine hundred
    levels are left when the script reaches the decoder. *)
Definition cpython : Json.Limits := {|
  Json.nesting_limit := 900;
  Json.int_max_str_digits := 4300
|}.

(** An interpreter whose stack is nearly used up when the script reaches
    the decoder, and whose limit on integers is set as low as it goes. *)
Definition near_limit : Json.Limits := {|
  Json.nesting_limit := 2;
  Json.int_max_str_digits := 640
|}.

Definition app_defaults : App.Session := {|
  App.conversation_id := py "0123456789abcdef";
  App.collected_facts := [];
  App.research_done := false;
  App.report_result := None;
  App.critique_result := None
|}.

Definition main_defaults : Main.Session := {|
  Main.conversation_id := py "0123456789abcdef";
  Main.collected_facts := [];
  Main.research_done := false;
  Main.report_result := None
|}.

Definition solar : str := py "Solar Power in Rural India".

(** A plan with nothing in it, as the triage stage may well send it. *)
Definition empty_plan_text : str :=
  dq (py "{'topic': '', 'search_queries': [], 'focus_areas': []}").

(** An object whose string holds a brace and three backticks, in a
    fenced block. *)
Definition tricky_object : str := dq (py "{'a': '}```'}").
Definition tricky_text : str :=
  py "```json" ++ nl ++ tricky_object ++ nl ++ py "```".

(** Python, not JSON. *)
Definition injected : str := py "{__import__('os').system('id')}".

End Scenario.

(* ================================================================== *)
(** * Vocabulary of the statements *)
(* ================================================================== *)

(** The plan both variants fall back to. *)
Definition fallback_plan (topic : str) : ResearchPlan :=
  {| topic := topic; search_queries := [topic];
     focus_areas := [py "General overview"] |}.

(** The session a run of [app.py] starts from: everything but the
    conversation identifier is reset. *)
Definition blank (st : App.Session) : App.Session :=
  {| App.conversation_id := App.conversation_id st;
     App.collected_facts := []; App.research_done := false;
     App.report_result := None; App.critique_result := None |}.

(** The events of the model client. *)
Definition client_event (e : Event) : Prop :=
  match e with Generate _ _ | Sleep _ => True | _ => False end.

(** [evs] starts with the call of [self] on [prompt]. *)
Definition calls (self : GeminiAgent) (prompt : str) (evs : list Event)
  : Prop :=
  exists rest,
    evs = Generate (model_name self) (App.full_prompt_of self prompt) :: rest.

(** The plans displayed in the course of a trace. *)
Fixpoint plans_shown (tr : list Event) : list ResearchPlan :=
  match tr with
  | [] => []
  | StJson plan :: tr' => plan :: plans_shown tr'
  | _ :: tr' => plans_shown tr'
  end.

(** The texts evaluated as Python in the course of a trace. *)
Fixpoint evaluated (tr : list Event) : list str :=
  match tr with
  | [] => []
  | Eval source :: tr' => source :: evaluated tr'
  | _ :: tr' => evaluated tr'
  end.

(** The error messages displayed in the course of a trace. *)
Fixpoint errors_shown (tr : list Event) : list str :=
  match tr with
  | [] => []
  | StError text :: tr' => text :: errors_shown tr'
  | _ :: tr' => errors_shown tr'
  end.

(** Every character of [s] is in the ASCII range. *)
Definition all_ascii (s : str) : Prop := Forall (fun c => (c < 128)%N) s.

(** A mapping, as opposed to any other value [json.loads] may return. *)
Definition is_mapping (v : json) : bool :=
  match v with JObject _ => true | _ => false end.

(** No position of [pre] starts a triple backtick in [pre ++ rest]. *)
Fixpoint no_fence_in (pre rest : str) : bool :=
  match pre with
  | [] => true
  | _ :: pre' =>
      negb (startswith (py "```") (pre ++ rest)) && no_fence_in pre' rest
  end.

(** [s] is optional whitespace followed by a triple backtick. *)
Definition closes_fence (s : str) : bool :=
  startswith (py "```") (lstrip s).

(** No closing brace of [body] is followed by the end of a fence. *)
Fixpoint no_early_close (body : str) : bool :=
  match body with
  | [] => true
  | c :: body' =>
      (if (c =? 125)%N then negb (closes_fence body') else true)
      && no_early_close body'
  end.

(** What follows the group of the fence: whitespace and the closing
    fence. *)
Definition after_group (R : Type) (k : Re.cont R) : Re.cont R :=
  fun s cap =>
    Re.exec (Re.Star Re.Greedy Re.Space) s cap
      (fun s1 cap1 =>
         Re.exec (Re.Lit (py "```")) s1 cap1
           (fun s2 cap2 => Re.exec Re.Eps s2 cap2 k)).

(** With fuel beyond twice the length of the text, no call of the decoder
    runs out of it, and every value consumes something. *)
Definition enough {L : Json.Limits} (fuel : nat) : Prop :=
  (forall depth s,
      2 * List.length s < fuel ->
      Json.scan_once fuel depth s <> Json.OutOfFuel /\
      forall v r, Json.scan_once fuel depth s = Json.Parsed v r ->
                  List.length r < List.length s)
  /\ (forall depth pairs s,
         2 * List.length s + 2 <= fuel ->
         Json.members fuel depth pairs s <> Json.OutOfFuel /\
         forall v r, Json.members fuel depth pairs s = Json.Parsed v r ->
                     List.length r < List.length s)
  /\ (forall depth values s,
         2 * List.length s + 2 <= fuel ->
         Json.elements fuel depth values s <> Json.OutOfFuel /\
         forall v r, Json.elements fuel depth values s = Json.Parsed v r ->
                     List.length r < List.length s).

(** The calls of the model service in the course of a trace. *)
Fixpoint calls_made (tr : list Event) : nat :=
  match tr with
  | [] => 0
  | Generate _ _ :: tr' => S (calls_made tr')
  | _ :: tr' => calls_made tr'
  end.

(** The seconds slept in the course of a trace. *)
Fixpoint seconds_slept (tr : list Event) : nat :=
  match tr with
  | [] => 0
  | Sleep n :: tr' => n + seconds_slept tr'
  | _ :: tr' => seconds_slept tr'
  end.

(** The text a successful call gives back: [text if text else
    "No response."]. *)
Definition text_or_placeholder (t : option str) : str :=
  match t with
  | Some t => str_or t (py "No response.")
  | None => py "No response."
  end.

(** The words a regular expression matches, whatever the order in which
    the matcher tries them. *)
Inductive lang : Re.regex -> str -> Prop :=
| lang_Eps : lang Re.Eps []
| lang_Chr c : lang (Re.Chr c) [c]
| lang_Cls (p : char -> bool) x : p x = true -> lang (Re.Cls p) [x]
| lang_Seq r1 r2 w1 w2 :
    lang r1 w1 -> lang r2 w2 -> lang (Re.Seq r1 r2) (w1 ++ w2)
| lang_Alt_l r1 r2 w : lang r1 w -> lang (Re.Alt r1 r2) w
| lang_Alt_r r1 r2 w : lang r2 w -> lang (Re.Alt r1 r2) w
| lang_Star_nil g r : lang (Re.Star g r) []
| lang_Star_cons g r w1 w2 :
    lang r w1 -> lang (Re.Star g r) w2 -> lang (Re.Star g r) (w1 ++ w2)
| lang_Group r w : lang r w -> lang (Re.Group r) w.

(** A pattern without group. *)
Fixpoint group_free (r : Re.regex) : bool :=
  match r with
  | Re.Eps | Re.Chr _ | Re.Cls _ => true
  | Re.Seq r1 r2 | Re.Alt r1 r2 => group_free r1 && group_free r2
  | Re.Star _ r1 => group_free r1
  | Re.Group _ => false
  end.

(** [w] is in braces. *)
Definition in_braces (w : str) : Prop :=
  exists mid, w = 123%N :: mid ++ [125%N].

(** [w] occurs in [text]. *)
Definition occurs_in (w text : str) : Prop :=
  exists pre post, text = pre ++ w ++ post.

(** [text] holds an opening brace and, somewhere after it, a closing
    one. *)
Definition has_brace_pair (text : str) : Prop :=
  exists pre mid post, text = pre ++ 123%N :: mid ++ 125%N :: post.

(** The fence pattern, cut at its group: what stands before the group,
    the group, what stands after it; and the same for the brace
    pattern. *)
Definition fence_before : Re.regex :=
  Re.Seq (Re.Lit (py "```"))
    (Re.Seq (Re.Opt (Re.Lit (py "json"))) (Re.Star Re.Greedy Re.Space)).
Definition fence_after : Re.regex :=
  Re.Cat [Re.Star Re.Greedy Re.Space; Re.Lit (py "```")].
Definition braces_lazy : Re.regex :=
  Re.Cat [Re.Chr 123%N; Re.Star Re.Lazy Re.Any; Re.Chr 125%N].
Definition braces_greedy : Re.regex :=
  Re.Cat [Re.Chr 123%N; Re.Star Re.Greedy Re.Any; Re.Chr 125%N].

(** The cost of one call of [GeminiAgent.run] in [app.py]: one call and no
    sleep, two calls and 2 seconds, or three calls and 6 seconds. *)
Definition run_cost (evs : list Event) : Prop :=
  (calls_made evs = 1 /\ seconds_slept evs = 0)
  \/ (calls_made evs = 2 /\ seconds_slept evs = 2)
  \/ (calls_made evs = 3 /\ seconds_slept evs = 6).

(** The service fails on the calls numbered below [failures] and answers
    [reply] from then on. *)
Definition flaky (failures : nat) (reply : option str) : Env := {|
  service := fun h _ _ =>
               if calls_made h <? failures
               then Raised (Error (py "429 Too Many Requests"))
               else Return reply;
  now := fun _ => py "12:00:00";
  py_eval := fun _ _ => Raised (Error (py "invalid syntax"));
  repr_list := Scenario.plain_repr
|}.

(** A plan as the triage stage is asked to send it. *)
Definition solar_plan_text : str :=
  Scenario.dq (py "{'topic': 'Solar', 'search_queries': ['cost', 'grid'], 'focus_areas': ['policy'], 'note': 1}").

(** The triage stage sends that plan, every other stage some text. *)
Definition solar_env : Env :=
  Scenario.answering solar_plan_text (py "Some text.") (Return JNull).

Definition solar_run : Outcome unit * App.Session * list Event :=
  App.run_research (P := pydantic_strict) (L := Scenario.cpython)
                   solar_env Scenario.solar Scenario.app_defaults [].

(** A JSON array, as opposed to any other value. *)
Definition is_array (v : json) : bool :=
  match v with JArray _ => true | _ => false end.

(** The prompt [main.py] sends to its triage agent. *)
Definition main_triage_prompt (topic : str) : str :=
  instructions Main.triage_agent ++ nl ++ nl ++ py "User query:" ++ nl
    ++ py "Research this topic thoroughly: " ++ topic.

(** A text that opens [n] arrays one inside the other, whatever follows. *)
Definition opens_arrays (n : nat) (rest : str) : str :=
  repeat 91%N n ++ rest.

(** The text of an integer: a minus sign or none, then digits. *)
Definition integer_text (negative : bool) (digits : str) : str :=
  (if negative then [45%N] else []) ++ digits.

(** A run of [main.py] on [topic] that starts after [tr] does not reach
    [eval]: the call of the triage stage raises, or the text it gives,
    stripped, does not start with an opening brace. *)
Definition skips_eval (env : Env) (topic : str) (tr : list Event) : Prop :=
  match service env tr gemini_flash (main_triage_prompt topic) with
  | Return reply =>
      startswith (py "{") (strip (text_or_placeholder reply)) = false
  | Raised _ => True
  end.

(* ================================================================== *)
(** * The fuel of the decoder *)
(* ================================================================== *)

Module JsonFacts.
Import Json.

Lemma skip_ws_length (s : str) : List.length (skip_ws s) <= List.length s.
Proof.
  induction s as [|c s IH]; simpl; auto.
  destruct (is_ws c); simpl; lia.
Qed.

Lemma skip_ws_cons (s r : str) (c : char) :
  skip_ws s = c :: r -> List.length r < List.length s.
Proof.
  intros H. pose proof (skip_ws_length s) as L. rewrite H in L.
  simpl in L. lia.
Qed.

Lemma scanstring_length (s : str) :
  forall acc v r, scanstring acc s = Some (v, r) ->
                  List.length r < List.length s.
Proof.
  induction s as [s IH] using (induction_ltof1 _ (@List.length char)).
  unfold ltof in IH.
  intros acc v r H. destruct s as [|c s]; [discriminate|].
  cbn [scanstring] in H.
  destruct (c =? 34)%N.
  { injection H as _ <-. simpl. lia. }
  destruct (c =? 92)%N.
  - destruct s as [|e r1]; [discriminate|].
    destruct (e =? 117)%N.
    + destruct r1 as [|a [|b [|c4 [|d r2]]]]; try discriminate.
      destruct (hex4 a b c4 d) as [uni|]; [|discriminate].
      assert (Hr2 : forall acc', scanstring acc' r2 = Some (v, r) ->
                             List.length r < List.length (c :: e :: a :: b :: c4 :: d :: r2)).
      { intros acc' H'. apply IH in H'; simpl in *; lia. }
      destruct r2 as [|bs [|u [|a' [|b' [|c' [|d' r3]]]]]];
        try (eapply Hr2; exact H).
      destruct (is_high_surrogate uni && ((bs =? 92) && (u =? 117))%N);
        [|eapply Hr2; exact H].
      destruct (hex4 a' b' c' d') as [lo|]; [|discriminate].
      destruct (is_low_surrogate lo); [|eapply Hr2; exact H].
      apply IH in H; simpl in *; lia.
    + destruct (backslash e); [|discriminate].
      apply IH in H; simpl in *; lia.
  - destruct (c <? 32)%N; [discriminate|].
    apply IH in H; simpl in *; lia.
Qed.

Lemma eat_length (w s r : str) :
  eat w s = Some r -> List.length r + List.length w = List.length s.
Proof.
  revert s. induction w as [|x w IH]; intros s H; simpl in *.
  - injection H as ->. lia.
  - destruct s as [|y s]; [discriminate|].
    destruct (char_eqb x y); [|discriminate].
    apply IH in H. simpl. lia.
Qed.

Lemma span_digits_length (s ds r : str) :
  span_digits s = (ds, r) -> List.length r <= List.length s.
Proof.
  revert ds r. induction s as [|c s IH]; intros ds r H; simpl in *.
  - injection H as _ <-. auto.
  - destruct (is_digit c).
    + destruct (span_digits s) as [ds' r'] eqn:E.
      injection H as _ <-. specialize (IH _ _ eq_refl). lia.
    + injection H as _ <-. simpl. lia.
Qed.

Lemma match_int_length (s l r : str) :
  match_int s = Some (l, r) -> List.length r < List.length s.
Proof.
  unfold match_int. intros H.
  destruct s as [|c s]; [discriminate|].
  destruct (c =? 45)%N.
  - destruct s as [|c1 s2]; [discriminate|].
    destruct (c1 =? 48)%N; [injection H as _ <-; simpl; lia|].
    destruct (is_digit c1); [|discriminate].
    destruct (span_digits s2) as [ds rest] eqn:E.
    injection H as _ <-. apply span_digits_length in E. simpl. lia.
  - destruct (c =? 48)%N; [injection H as _ <-; simpl; lia|].
    destruct (is_digit c); [|discriminate].
    destruct (span_digits s) as [ds rest] eqn:E.
    injection H as _ <-. apply span_digits_length in E. simpl. lia.
Qed.

Lemma match_frac_length (s f r : str) :
  match_frac s = (f, r) -> List.length r <= List.length s.
Proof.
  unfold match_frac. intros H.
  destruct s as [|c s]; [injection H as _ <-; auto|].
  destruct (c =? 46)%N; [|injection H as _ <-; auto].
  destruct (span_digits s) as [[|d ds] rest] eqn:E;
    injection H as _ <-; auto.
  apply span_digits_length in E. simpl. lia.
Qed.

Lemma match_exp_length (s e r : str) :
  match_exp s = (e, r) -> List.length r <= List.length s.
Proof.
  unfold match_exp. intros H.
  destruct s as [|c s]; [injection H as _ <-; auto|].
  destruct ((c =? 101) || (c =? 69))%N; [|injection H as _ <-; auto].
  destruct s as [|c1 s1].
  - simpl in H. injection H as _ <-. auto.
  - destruct ((c1 =? 45) || (c1 =? 43))%N.
    + destruct (span_digits s1) as [[|d ds] rest] eqn:E;
        injection H as _ <-; auto.
      apply span_digits_length in E. simpl. lia.
    + destruct (span_digits (c1 :: s1)) as [[|d ds] rest] eqn:E;
        injection H as _ <-; auto.
      apply span_digits_length in E. simpl in *. lia.
Qed.

Lemma match_number_length (s l r : str) :
  match_number s = Some (l, r) -> List.length r < List.length s.
Proof.
  unfold match_number. intros H.
  destruct (match_int s) as [[i s1]|] eqn:Ei; [|discriminate].
  destruct (match_frac s1) as [f s2] eqn:Ef.
  destruct (match_exp s2) as [e s3] eqn:Ee.
  injection H as _ <-.
  apply match_int_length in Ei. apply match_frac_length in Ef.
  apply match_exp_length in Ee. lia.
Qed.

Section Fuel.
Context {L : Limits}.

Lemma keyword_spec (s : str) :
  keyword s <> OutOfFuel /\
  forall v r, keyword s = Parsed v r -> List.length r < List.length s.
Proof.
  unfold keyword.
  repeat match goal with
         | |- context [match eat ?w s with _ => _ end] =>
             let E := fresh "E" in
             destruct (eat w s) eqn:E;
             [ apply eat_length in E; simpl in E;
               split; [discriminate | intros v r H; injection H as _ <-; lia]
             | ]
         | |- context [match match_number s with _ => _ end] =>
             let E := fresh "E" in
             destruct (match_number s) as [[l r0]|] eqn:E;
             [ apply match_number_length in E;
               destruct (int_refused l);
               split; try discriminate;
               intros v r H; injection H as _ <-; lia
             | ]
         end.
  split; [discriminate | intros v r H; discriminate].
Qed.

Lemma enough_fuel (fuel : nat) : enough fuel.
Proof.
  induction fuel as [|fuel (IHs & IHm & IHe)].
  { repeat split; intros; simpl in *; lia. }
  split; [|split].
  - (* scan_once *)
    intros depth s Hs. cbn [scan_once].
    destruct s as [|c r]; [split; [discriminate|intros; discriminate]|].
    destruct (c =? 34)%N.
    { destruct (scanstring [] r) as [[v rest]|] eqn:E;
        [|split; [discriminate|intros; discriminate]].
      apply scanstring_length in E.
      split; [discriminate|]. intros v0 r0 H. injection H as _ <-.
      simpl. lia. }
    destruct (c =? 123)%N.
    { destruct (nesting_limit <=? depth);
        [split; [discriminate|intros; discriminate]|].
      destruct (skip_ws r) as [|c1 r1] eqn:E;
        [split; [discriminate|intros; discriminate]|].
      apply skip_ws_cons in E.
      destruct (c1 =? 125)%N.
      { split; [discriminate|]. intros v0 r0 H. injection H as _ <-.
        simpl. lia. }
      destruct (c1 =? 34)%N; [|split; [discriminate|intros; discriminate]].
      destruct (IHm (S depth) [] r1) as [H1 H2]; [simpl in Hs; lia|].
      split; [exact H1|]. intros v0 r0 H. apply H2 in H. simpl. lia. }
    destruct (c =? 91)%N.
    { destruct (nesting_limit <=? depth);
        [split; [discriminate|intros; discriminate]|].
      destruct (skip_ws r) as [|c1 r1] eqn:E;
        [split; [discriminate|intros; discriminate]|].
      apply skip_ws_cons in E.
      destruct (c1 =? 93)%N.
      { split; [discriminate|]. intros v0 r0 H. injection H as _ <-.
        simpl. lia. }
      destruct (IHe (S depth) [] (c1 :: r1)) as [H1 H2]; [simpl in *; lia|].
      split; [exact H1|]. intros v0 r0 H. apply H2 in H. simpl in *. lia. }
    apply keyword_spec.
  - (* members *)
    intros depth pairs s Hs. cbn [members].
    destruct (scanstring [] s) as [[key s1]|] eqn:Ek;
      [|split; [discriminate|intros; discriminate]].
    apply scanstring_length in Ek.
    destruct (skip_ws s1) as [|colon s2] eqn:E1;
      [split; [discriminate|intros; discriminate]|].
    apply skip_ws_cons in E1.
    destruct (colon =? 58)%N; [|split; [discriminate|intros; discriminate]].
    pose proof (skip_ws_length s2) as L2.
    destruct (IHs depth (skip_ws s2)) as [H1 H2]; [lia|].
    destruct (scan_once fuel depth (skip_ws s2)) as [v s3| |] eqn:Ev;
      [|split; [discriminate|intros; discriminate]|congruence].
    specialize (H2 _ _ eq_refl).
    destruct (skip_ws s3) as [|c s4] eqn:E3;
      [split; [discriminate|intros; discriminate]|].
    apply skip_ws_cons in E3.
    destruct (c =? 125)%N.
    { split; [discriminate|]. intros v0 r0 H. injection H as _ <-. lia. }
    destruct (c =? 44)%N; [|split; [discriminate|intros; discriminate]].
    destruct (skip_ws s4) as [|q s5] eqn:E4;
      [split; [discriminate|intros; discriminate]|].
    apply skip_ws_cons in E4.
    destruct (q =? 34)%N; [|split; [discriminate|intros; discriminate]].
    destruct (IHm depth (pairs ++ [(key, v)]) s5) as [H3 H4]; [lia|].
    split; [exact H3|]. intros v0 r0 H. apply H4 in H. lia.
  - (* elements *)
    intros depth values s Hs. cbn [elements].
    destruct (IHs depth s) as [H1 H2]; [lia|].
    destruct (scan_once fuel depth s) as [v s1| |] eqn:Ev;
      [|split; [discriminate|intros; discriminate]|congruence].
    specialize (H2 _ _ eq_refl).
    destruct (skip_ws s1) as [|c s2] eqn:E1;
      [split; [discriminate|intros; discriminate]|].
    apply skip_ws_cons in E1.
    destruct (c =? 93)%N.
    { split; [discriminate|]. intros v0 r0 H. injection H as _ <-. lia. }
    destruct (c =? 44)%N; [|split; [discriminate|intros; discriminate]].
    pose proof (skip_ws_length s2) as L2.
    destruct (IHe depth (values ++ [v]) (skip_ws s2)) as [H3 H4]; [lia|].
    split; [exact H3|]. intros v0 r0 H. apply H4 in H. lia.
Qed.

(** The decoder of [loads] never runs out of fuel: when [loads] gives
    nothing, the text is not valid JSON. *)
Lemma loads_fuel (s : str) : decode (fuel_for s) s <> OutOfFuel.
Proof.
  unfold decode, fuel_for.
  pose proof (skip_ws_length s) as Hl.
  destruct (enough_fuel (2 * List.length s + 2)) as (Hs & _ & _).
  destruct (Hs 0 (skip_ws s)) as [H _]; [lia|].
  destruct (scan_once (2 * List.length s + 2) 0 (skip_ws s)) as [v r| |];
    [destruct (skip_ws r); discriminate | discriminate | congruence].
Qed.
End Fuel.

Section Refusals.
Context {L : Limits}.

(** The decoder gives up at the array that would exceed the nesting
    limit, whatever the text holds after it. *)
Lemma scan_once_too_deep (k : nat) :
  forall fuel depth rest v r,
    nesting_limit <= depth + k ->
    scan_once fuel depth (opens_arrays (S k) rest) <> Parsed v r.
Proof.
  unfold opens_arrays.
  induction k as [|k IH]; intros fuel depth rest v r Hk;
    (destruct fuel as [|fuel]; [discriminate|]);
    cbn [repeat app scan_once];
    change (91 =? 34)%N with false; change (91 =? 123)%N with false;
    change (91 =? 91)%N with true; cbv iota.
  - replace (nesting_limit <=? depth) with true
      by (symmetry; apply Nat.leb_le; lia).
    discriminate.
  - destruct (nesting_limit <=? depth) eqn:E; [discriminate|].
    apply Nat.leb_gt in E.
    cbn [repeat app skip_ws]. change (is_ws 91%N) with false. cbv iota.
    change (91 =? 93)%N with false. cbv iota.
    destruct fuel as [|fuel]; [discriminate|].
    cbn [elements].
    specialize (IH fuel (S depth) rest).
    cbn [repeat app] in IH.
    match goal with
    | |- context [scan_once ?f ?d ?s] =>
        destruct (scan_once f d s) as [v1 r1| |] eqn:Es
    end; [|discriminate|discriminate].
    exfalso. apply (IH v1 r1); [lia|exact Es].
Qed.

Lemma loads_too_deep (n : nat) (rest : str) :
  nesting_limit < n -> loads (opens_arrays n rest) = None.
Proof.
  intros Hn. destruct n as [|k]; [lia|].
  unfold loads.
  pose proof (@scan_once_too_deep k (fuel_for (opens_arrays (S k) rest)) 0 rest)
    as H.
  unfold decode.
  assert (Hw : skip_ws (opens_arrays (S k) rest) = opens_arrays (S k) rest)
    by reflexivity.
  rewrite Hw.
  destruct (scan_once (fuel_for (opens_arrays (S k) rest)) 0
              (opens_arrays (S k) rest)) as [v r| |].
  - exfalso. apply (H v r); [lia|reflexivity].
  - reflexivity.
  - reflexivity.
Qed.
Lemma span_digits_all (ds : str) :
  forallb is_digit ds = true -> span_digits ds = (ds, []).
Proof.
  induction ds as [|c ds IH]; simpl; [reflexivity|].
  intros H. apply andb_prop in H. destruct H as [Hc Hds].
  rewrite Hc, (IH Hds). reflexivity.
Qed.

Lemma filter_digits_all (ds : str) :
  forallb is_digit ds = true -> filter is_digit ds = ds.
Proof.
  induction ds as [|c ds IH]; simpl; [reflexivity|].
  intros H. apply andb_prop in H. destruct H as [Hc Hds].
  rewrite Hc, (IH Hds). reflexivity.
Qed.

Lemma is_float_digits (ds : str) :
  forallb is_digit ds = true -> is_float ds = false.
Proof.
  unfold is_float.
  induction ds as [|c ds IH]; simpl; [reflexivity|].
  intros H. apply andb_prop in H. destruct H as [Hc Hds].
  rewrite (IH Hds). unfold is_digit in Hc.
  apply andb_prop in Hc. destruct Hc as [H1 H2].
  apply N.leb_le in H1, H2.
  replace (c =? 46)%N with false by (symmetry; apply N.eqb_neq; lia).
  replace (c =? 101)%N with false by (symmetry; apply N.eqb_neq; lia).
  replace (c =? 69)%N with false by (symmetry; apply N.eqb_neq; lia).
  reflexivity.
Qed.

Lemma digit_range (c : char) :
  is_digit c = true -> (48 <= c <= 57)%N.
Proof.
  unfold is_digit. intros H. apply andb_prop in H. destruct H as [H1 H2].
  apply N.leb_le in H1, H2. lia.
Qed.

Lemma eat_mismatch (x : char) (w : str) (c : char) (s : str) :
  (x =? c)%N = false -> eat (x :: w) (c :: s) = None.
Proof. intros H. cbn [eat]. unfold char_eqb. rewrite H. reflexivity. Qed.

(** The number at the head of a text of digits: the whole text, or its
    leading zero. *)
Lemma match_number_digits (c : char) (ds : str) :
  forallb is_digit (c :: ds) = true ->
  match_number (c :: ds)
  = if (c =? 48)%N then Some ([c], ds) else Some (c :: ds, []).
Proof.
  intros H. pose proof H as Hall.
  simpl in H. apply andb_prop in H. destruct H as [Hc Hds].
  pose proof (digit_range _ Hc) as Rc.
  unfold match_number, match_int.
  replace (c =? 45)%N with false by (symmetry; apply N.eqb_neq; lia).
  destruct (c =? 48)%N eqn:E0.
  - cbn [app]. destruct ds as [|d ds]; [reflexivity|].
    simpl in Hds. apply andb_prop in Hds. destruct Hds as [Hd Hds].
    pose proof (digit_range _ Hd) as Rd.
    unfold match_frac, match_exp.
    replace (d =? 46)%N with false by (symmetry; apply N.eqb_neq; lia).
    replace (d =? 101)%N with false by (symmetry; apply N.eqb_neq; lia).
    replace (d =? 69)%N with false by (symmetry; apply N.eqb_neq; lia).
    reflexivity.
  - rewrite Hc. rewrite (span_digits_all _ Hds). cbn [app].
    unfold match_frac, match_exp. rewrite !app_nil_r. reflexivity.
Qed.

Lemma keyword_digits (c : char) (ds : str) :
  forallb is_digit (c :: ds) = true ->
  keyword (c :: ds)
  = if (c =? 48)%N then Parsed (JNumber [c]) ds
    else if int_refused (c :: ds) then Invalid
         else Parsed (JNumber (c :: ds)) [].
Proof.
  intros H. pose proof H as Hall.
  simpl in H. apply andb_prop in H. destruct H as [Hc Hds].
  pose proof (digit_range _ Hc) as Rc.
  unfold keyword.
  assert (Hn : eat (py "null") (c :: ds) = None).
  { change (py "null") with (110%N :: py "ull").
    apply eat_mismatch. apply N.eqb_neq. lia. }
  assert (Ht : eat (py "true") (c :: ds) = None).
  { change (py "true") with (116%N :: py "rue").
    apply eat_mismatch. apply N.eqb_neq. lia. }
  assert (Hf : eat (py "false") (c :: ds) = None).
  { change (py "false") with (102%N :: py "alse").
    apply eat_mismatch. apply N.eqb_neq. lia. }
  rewrite Hn, Ht, Hf, (match_number_digits _ _ Hall).
  destruct (c =? 48)%N eqn:E0; [|reflexivity].
  assert (Hr : int_refused [c] = false).
  { unfold int_refused. cbn [filter]. rewrite Hc. cbn. 
    rewrite andb_false_r. reflexivity. }
  rewrite Hr. reflexivity.
Qed.
Lemma match_number_negative (c : char) (ds : str) :
  forallb is_digit (c :: ds) = true ->
  match_number (45%N :: c :: ds)
  = if (c =? 48)%N then Some ([45%N; c], ds) else Some (45%N :: c :: ds, []).
Proof.
  intros H. simpl in H. apply andb_prop in H. destruct H as [Hc Hds].
  pose proof (digit_range _ Hc) as Rc.
  unfold match_number, match_int.
  change (45 =? 45)%N with true. cbv iota.
  destruct (c =? 48)%N eqn:E0.
  - cbn [app]. destruct ds as [|d ds]; [reflexivity|].
    simpl in Hds. apply andb_prop in Hds. destruct Hds as [Hd Hds].
    pose proof (digit_range _ Hd) as Rd.
    unfold match_frac, match_exp.
    replace (d =? 46)%N with false by (symmetry; apply N.eqb_neq; lia).
    replace (d =? 101)%N with false by (symmetry; apply N.eqb_neq; lia).
    replace (d =? 69)%N with false by (symmetry; apply N.eqb_neq; lia).
    reflexivity.
  - rewrite Hc. rewrite (span_digits_all _ Hds). cbn [app].
    unfold match_frac, match_exp. rewrite !app_nil_r. reflexivity.
Qed.

Lemma keyword_negative (c : char) (ds : str) :
  forallb is_digit (c :: ds) = true ->
  keyword (45%N :: c :: ds)
  = if (c =? 48)%N then Parsed (JNumber [45%N; c]) ds
    else if int_refused (45%N :: c :: ds) then Invalid
         else Parsed (JNumber (45%N :: c :: ds)) [].
Proof.
  intros H. pose proof H as Hall.
  simpl in H. apply andb_prop in H. destruct H as [Hc Hds].
  unfold keyword.
  change (py "null") with (110%N :: py "ull").
  change (py "true") with (116%N :: py "rue").
  change (py "false") with (102%N :: py "alse").
  rewrite !eat_mismatch by reflexivity.
  rewrite (match_number_negative _ _ Hall).
  destruct (c =? 48)%N eqn:E0; [|reflexivity].
  assert (Hr : int_refused [45%N; c] = false).
  { unfold int_refused. cbn [filter]. change (is_digit 45%N) with false.
    rewrite Hc. cbn. rewrite andb_false_r. reflexivity. }
  rewrite Hr. reflexivity.
Qed.

Lemma int_refused_digits (sign ds : str) :
  forallb is_digit ds = true ->
  sign = [] \/ sign = [45%N] ->
  640 < List.length ds ->
  0 < int_max_str_digits -> int_max_str_digits < List.length ds ->
  int_refused (sign ++ ds) = true.
Proof.
  intros Hds Hsign H640 H0 Hmax. unfold int_refused.
  assert (Hf : filter is_digit (sign ++ ds) = ds).
  { destruct Hsign as [-> | ->]; cbn [app filter];
      [|change (is_digit 45%N) with false; cbv iota];
      apply filter_digits_all; exact Hds. }
  assert (Hfl : is_float (sign ++ ds) = false).
  { destruct Hsign as [-> | ->]; cbn [app].
    - apply is_float_digits. exact Hds.
    - unfold is_float. cbn [existsb].
      change ((45 =? 46) || (45 =? 101) || (45 =? 69))%N with false.
      cbn [orb]. apply is_float_digits. exact Hds. }
  rewrite Hf, Hfl. cbn [negb andb].
  rewrite !andb_true_iff. repeat split; apply Nat.ltb_lt; assumption.
Qed.

(** An integer of more digits than the interpreter converts is refused,
    with its sign or without. *)
Lemma loads_long_integer (negative : bool) (ds : str) :
  forallb is_digit ds = true ->
  640 < List.length ds ->
  0 < int_max_str_digits -> int_max_str_digits < List.length ds ->
  loads (integer_text negative ds) = None.
Proof.
  intros Hds H640 H0 Hmax.
  destruct ds as [|c ds]; [simpl in H640; lia|].
  pose proof Hds as Hall.
  simpl in Hds. apply andb_prop in Hds. destruct Hds as [Hc Hds].
  pose proof (digit_range _ Hc) as Rc.
  assert (Htail : forall v, match skip_ws ds with
                            | [] => Parsed v []
                            | _ :: _ => Invalid
                            end = @Invalid json).
  { intros v. destruct ds as [|d ds]; [simpl in H640; lia|].
    simpl in Hds. apply andb_prop in Hds. destruct Hds as [Hd _].
    pose proof (digit_range _ Hd) as Rd.
    cbn [skip_ws]. unfold is_ws.
    replace (d =? 32)%N with false by (symmetry; apply N.eqb_neq; lia).
    replace (d =? 9)%N with false by (symmetry; apply N.eqb_neq; lia).
    replace (d =? 10)%N with false by (symmetry; apply N.eqb_neq; lia).
    replace (d =? 13)%N with false by (symmetry; apply N.eqb_neq; lia).
    reflexivity. }
  unfold loads, decode, fuel_for, integer_text.
  destruct negative; cbn [app].
  - change (startswith [65279%N] (45%N :: c :: ds)) with false. cbv iota.
    change (skip_ws (45%N :: c :: ds)) with (45%N :: c :: ds).
    cbn [List.length Nat.mul Nat.add scan_once].
    change (45 =? 34)%N with false. change (45 =? 123)%N with false.
    change (45 =? 91)%N with false. cbv iota.
    rewrite (keyword_negative _ _ Hall).
    destruct (c =? 48)%N.
    + rewrite Htail. reflexivity.
    + assert (Hr : int_refused (45%N :: c :: ds) = true)
        by (apply (@int_refused_digits [45%N] (c :: ds)); auto).
      rewrite Hr. reflexivity.
  - assert (Hb : startswith [65279%N] (c :: ds) = false).
    { cbn [startswith]. unfold char_eqb.
      replace (65279 =? c)%N with false by (symmetry; apply N.eqb_neq; lia).
      reflexivity. }
    rewrite Hb.
    assert (Hw : skip_ws (c :: ds) = c :: ds).
    { cbn [skip_ws]. unfold is_ws.
      replace (c =? 32)%N with false by (symmetry; apply N.eqb_neq; lia).
      replace (c =? 9)%N with false by (symmetry; apply N.eqb_neq; lia).
      replace (c =? 10)%N with false by (symmetry; apply N.eqb_neq; lia).
      replace (c =? 13)%N with false by (symmetry; apply N.eqb_neq; lia).
      reflexivity. }
    rewrite Hw.
    cbn [List.length Nat.mul Nat.add scan_once].
    replace (c =? 34)%N with false by (symmetry; apply N.eqb_neq; lia).
    replace (c =? 123)%N with false by (symmetry; apply N.eqb_neq; lia).
    replace (c =? 91)%N with false by (symmetry; apply N.eqb_neq; lia).
    rewrite (keyword_digits _ _ Hall).
    destruct (c =? 48)%N.
    + rewrite Htail. reflexivity.
    + assert (Hr : int_refused (c :: ds) = true)
        by (apply (@int_refused_digits [] (c :: ds)); auto).
      rewrite Hr. reflexivity.
Qed.
End Refusals.
End JsonFacts.

(* ================================================================== *)
(** * The model client of [app.py] *)
(* ================================================================== *)

Ltac run_step :=
  cbv beta iota zeta delta
    [bind try_except history emit lift_outcome ret any_exception modify raise
     App.generate_content App.sleep Main.generate_content Main.eval
     Main.save_important_fact
     Nat.ltb Nat.leb].

Lemma str_or_nonempty (a b : str) : b <> [] -> str_or a b <> [].
Proof. unfold str_or. destruct a; simpl; congruence. Qed.

Lemma text_or_no_response (t : option str) :
  match t with
  | Some t => str_or t (py "No response.")
  | None => py "No response."
  end <> [].
Proof. destruct t; [apply str_or_nonempty|]; discriminate. Qed.

Lemma plans_shown_app (a b : list Event) :
  plans_shown (a ++ b) = plans_shown a ++ plans_shown b.
Proof.
  induction a as [|e a IH]; simpl; auto.
  destruct e; simpl; rewrite ?IH; reflexivity.
Qed.

Lemma evaluated_app (a b : list Event) :
  evaluated (a ++ b) = evaluated a ++ evaluated b.
Proof.
  induction a as [|e a IH]; simpl; auto.
  destruct e; simpl; rewrite ?IH; reflexivity.
Qed.

Lemma client_events_show_no_plan (evs : list Event) :
  Forall client_event evs -> plans_shown evs = [].
Proof.
  induction 1 as [|e evs He _ IH]; simpl; auto.
  destruct e; simpl in *; tauto.
Qed.

Lemma client_events_evaluate_nothing (evs : list Event) :
  Forall client_event evs -> evaluated evs = [].
Proof.
  induction 1 as [|e evs He _ IH]; simpl; auto.
  destruct e; simpl in *; tauto.
Qed.

(** The loop of [GeminiAgent.run] never falls off its end: the three
    attempts end in a returned, non-empty text, the session untouched, and
    only the client's events added, the first of them the call. *)
Lemma app_run_spec (env : Env) (self : GeminiAgent) (prompt : str)
      (tr : list Event) :
  exists text evs,
    text <> [] /\ Forall client_event evs /\ calls self prompt evs /\
    forall st, App.run env self prompt st tr = (Return text, st, tr ++ evs).
Proof.
  unfold App.run, App.run_loop, seq, calls.
  set (fp := App.full_prompt_of self prompt).
  set (g := Generate (model_name self) fp).
  pose (text_of := fun t : option str =>
                     match t with
                     | Some t => str_or t (py "No response.")
                     | None => py "No response."
                     end).
  pose (diagnostic := fun e => App.warning_sign ++ py " Error from "
                                 ++ name self ++ py ": " ++ exn_str e).
  assert (Hd : forall e, diagnostic e <> []) by (intros e; discriminate).
  run_step. fold g.
  destruct (service env tr (model_name self) fp) as [t1|e1] eqn:E1.
  { exists (text_of t1), [g].
    repeat split; [apply text_or_no_response | repeat constructor | eauto ]. }
  destruct (service env ((tr ++ [g]) ++ [Sleep (2 * (0 + 1))])
              (model_name self) fp) as [t2|e2] eqn:E2.
  { exists (text_of t2), [g; Sleep 2; g].
    repeat split; [apply text_or_no_response | repeat constructor | eauto
                  | rewrite <- !app_assoc; reflexivity]. }
  match goal with
  | |- context [service env ?h (model_name self) fp] =>
      lazymatch h with
      | context [Sleep (2 * (1 + 1))] =>
          destruct (service env h (model_name self) fp) as [t3|e3] eqn:E3
      end
  end.
  { exists (text_of t3), [g; Sleep 2; g; Sleep 4; g].
    repeat split; [apply text_or_no_response | repeat constructor | eauto
                  | rewrite <- !app_assoc; reflexivity]. }
  exists (diagnostic e3), [g; Sleep 2; g; Sleep 4; g].
  repeat split; [apply Hd | repeat constructor | eauto
                | rewrite <- !app_assoc; reflexivity].
Qed.

(** X18. When every call of the model service raises, [GeminiAgent.run]
    of [app.py] makes exactly three calls, sleeps 2 seconds after the first
    and 4 seconds after the second, raises nothing, leaves the session as
    it was, and returns the diagnostic text that embeds the error of the
    third call. *)
Theorem X18_app_run_retries_three_times
        (env : Env) (self : GeminiAgent) (prompt : str)
        (st : App.Session) (tr : list Event) :
  (forall h m p, exists e, service env h m p = Raised e) ->
  let m := model_name self in
  let fp := App.full_prompt_of self prompt in
  exists e,
    service env (tr ++ [Generate m fp; Sleep 2; Generate m fp; Sleep 4]) m fp
    = Raised e /\
    App.run env self prompt st tr
    = (Return (App.warning_sign ++ py " Error from " ++ name self
                 ++ py ": " ++ exn_str e),
       st,
       tr ++ [Generate m fp; Sleep 2; Generate m fp; Sleep 4; Generate m fp]).
Proof.
  intros Hdown m fp.
  set (g := Generate m fp).
  destruct (Hdown tr m fp) as [e1 E1].
  destruct (Hdown ((tr ++ [g]) ++ [Sleep (2 * (0 + 1))]) m fp) as [e2 E2].
  destruct (Hdown ((((tr ++ [g]) ++ [Sleep (2 * (0 + 1))]) ++ [g])
                     ++ [Sleep (2 * (1 + 1))]) m fp) as [e3 E3].
  exists e3. split.
  - rewrite <- E3. rewrite <- !app_assoc. reflexivity.
  - unfold App.run, App.run_loop, seq. fold fp. run_step. fold m. fold g.
    rewrite E1, E2, E3. rewrite <- !app_assoc. reflexivity.
Qed.

Lemma X18_app_run_retries_three_times_witness :
  App.run Scenario.unavailable App.critic_agent (py "report")
          Scenario.app_defaults []
  = (Return (App.warning_sign
               ++ py " Error from Critic Agent: 503 Service Unavailable"),
     Scenario.app_defaults,
     let g := Generate gemini_flash
                (App.full_prompt_of App.critic_agent (py "report")) in
     [g; Sleep 2; g; Sleep 4; g]).
Proof.
  destruct (X18_app_run_retries_three_times Scenario.unavailable
              App.critic_agent (py "report") Scenario.app_defaults [])
    as [e [E H]].
  - intros h m p. eexists. reflexivity.
  - unfold Scenario.unavailable, service in E. injection E as <-. exact H.
Defined.

(* ================================================================== *)
(** * The workflow of [app.py] *)
(* ================================================================== *)

Lemma new_ResearchPlan_fallback {P : Pydantic} (topic : str) :
  new_ResearchPlan (fallback_dict topic) = Return (fallback_plan topic).
Proof.
  unfold new_ResearchPlan, fallback_dict, validate_plan. simpl.
  rewrite !str_validate_str. reflexivity.
Qed.

(** What a run of [run_research] comes to, whatever session it starts
    from: either the plan cannot be built and the exception leaves the
    reset session behind, or the four stages follow one another. *)
Lemma app_run_research_spec (env : Env) {P : Pydantic} {L : Json.Limits}
      (topic : str)
      (tr : list Event) :
  exists raw evs1,
    raw <> [] /\ Forall client_event evs1 /\
    (forall st, App.run env App.triage_agent (App.triage_prompt topic) st tr
                = (Return raw, st, tr ++ evs1)) /\
    match App.make_plan topic raw with
    | Raised e =>
        forall st,
          App.run_research env topic st tr = (Raised e, blank st, tr ++ evs1)
    | Return plan =>
        exists notes evs2 report evs3 critique evs4,
          notes <> [] /\ report <> [] /\ critique <> [] /\
          Forall client_event (evs2 ++ evs3 ++ evs4) /\
          calls App.research_agent (App.notes_prompt env plan) evs2 /\
          calls App.editor_agent (App.editor_prompt plan notes) evs3 /\
          calls App.critic_agent report evs4 /\
          forall st,
            App.run_research env topic st tr
            = (Return tt,
               {| App.conversation_id := App.conversation_id st;
                  App.collected_facts :=
                    [ {| fact := notes; source := App.source_label;
                         timestamp :=
                           now env (tr ++ evs1 ++ [StJson plan] ++ evs2) |} ];
                  App.research_done := true;
                  App.report_result := Some report;
                  App.critique_result := Some critique |},
               tr ++ evs1 ++ [StJson plan] ++ evs2 ++ evs3 ++ evs4)
    end.
Proof.
  destruct (app_run_spec env App.triage_agent (App.triage_prompt topic) tr)
    as (raw & evs1 & Hraw & Hev1 & _ & H1).
  exists raw, evs1. repeat split; auto.
  destruct (App.make_plan topic raw) as [plan|e] eqn:Eplan.
  - set (tr1 := (tr ++ evs1) ++ [StJson plan]).
    destruct (app_run_spec env App.research_agent (App.notes_prompt env plan) tr1)
      as (notes & evs2 & Hnotes & Hev2 & Hc2 & H2).
    destruct (app_run_spec env App.editor_agent (App.editor_prompt plan notes)
                (tr1 ++ evs2))
      as (report & evs3 & Hreport & Hev3 & Hc3 & H3).
    destruct (app_run_spec env App.critic_agent report ((tr1 ++ evs2) ++ evs3))
      as (critique & evs4 & Hcrit & Hev4 & Hc4 & H4).
    exists notes, evs2, report, evs3, critique, evs4.
    repeat split; auto.
    { rewrite !Forall_app. auto. }
    intros st. unfold App.run_research. run_step.
    rewrite H1, Eplan. fold tr1. rewrite H2, H3, H4.
    subst tr1. rewrite <- !app_assoc. reflexivity.
  - intros st. unfold App.run_research. run_step.
    rewrite H1, Eplan. reflexivity.
Qed.

Lemma make_plan_of_invalid_json {P : Pydantic} {L : Json.Limits}
      (topic raw : str) :
  Json.loads (App.payload_of raw) = None ->
  App.make_plan topic raw = Return (fallback_plan topic).
Proof.
  intros H. unfold App.make_plan, App.safe_json_parse. rewrite H.
  rewrite new_ResearchPlan_fallback. reflexivity.
Qed.

(** C1. When the text the triage stage returns holds no valid JSON (the
    payload taken from it does not parse), the plan is the fallback plan
    of the topic, and the run goes on through the research, editor and
    critic stages: it raises nothing, shows that plan and no other, stores
    one finding, a non-empty report and a non-empty critique, the critic
    having been called on the stored report, and marks the session
    done. *)
Theorem C1_invalid_triage_falls_back_and_completes
        (env : Env) {P : Pydantic} {L : Json.Limits} (topic triage_raw : str)
        (st : App.Session) (tr : list Event) :
  fst (fst (App.run env App.triage_agent (App.triage_prompt topic) st tr))
  = Return triage_raw ->
  Json.loads (App.payload_of triage_raw) = None ->
  App.make_plan topic triage_raw = Return (fallback_plan topic) /\
  exists st' tr' notes report critique,
    App.run_research env topic st tr = (Return tt, st', tr') /\
    plans_shown tr' = plans_shown tr ++ [fallback_plan topic] /\
    In (Generate gemini_flash
          (App.full_prompt_of App.research_agent
             (App.notes_prompt env (fallback_plan topic)))) tr' /\
    In (Generate gemini_flash
          (App.full_prompt_of App.editor_agent
             (App.editor_prompt (fallback_plan topic) notes))) tr' /\
    In (Generate gemini_flash
          (App.full_prompt_of App.critic_agent report)) tr' /\
    map fact (App.collected_facts st') = [notes] /\
    App.report_result st' = Some report /\ report <> [] /\
    App.critique_result st' = Some critique /\ critique <> [] /\
    App.research_done st' = true.
Proof.
  intros Hraw Hbad.
  destruct (app_run_research_spec env topic tr)
    as (raw & evs1 & _ & Hev1 & H1 & Hrun).
  rewrite H1 in Hraw. simpl in Hraw. injection Hraw as ->.
  pose proof (make_plan_of_invalid_json topic _ Hbad) as Hplan.
  split; [exact Hplan|].
  rewrite Hplan in Hrun.
  destruct Hrun as (notes & evs2 & report & evs3 & critique & evs4
                    & Hn & Hr & Hc & Hev & [r2 ->] & [r3 ->] & [r4 ->] & Hrun).
  eexists; eexists; exists notes, report, critique.
  split; [apply Hrun|].
  split.
  { rewrite !plans_shown_app.
    rewrite (client_events_show_no_plan Hev1).
    rewrite !app_assoc in Hev. rewrite <- !app_assoc in Hev.
    change (plans_shown [StJson (fallback_plan topic)])
      with [fallback_plan topic].
    rewrite <- !plans_shown_app.
    rewrite (client_events_show_no_plan Hev). rewrite app_nil_r. reflexivity. }
  repeat split; auto.
  - rewrite !in_app_iff. right. right. right. left. left. reflexivity.
  - rewrite !in_app_iff. right. right. right. right. left. left. reflexivity.
  - rewrite !in_app_iff. right. right. right. right. right. left. reflexivity.
Qed.

Lemma C1_invalid_triage_falls_back_and_completes_witness :
  App.make_plan (P := pydantic_strict) (L := Scenario.cpython)
                Scenario.solar (py "Sorry, I cannot help with that.")
  = Return {| topic := Scenario.solar;
              search_queries := [Scenario.solar];
              focus_areas := [py "General overview"] |}.
Proof.
  refine (proj1 (@C1_invalid_triage_falls_back_and_completes
                   (Scenario.answering (py "Sorry, I cannot help with that.")
                      (py "Some text.") (Return JNull))
                   pydantic_strict Scenario.cpython Scenario.solar
                   (py "Sorry, I cannot help with that.")
                   Scenario.app_defaults [] _ _)).
  - reflexivity.
  - vm_compute. reflexivity.
Defined.

(** C8. What a run stores does not depend on what the session held
    before: after a first run on one topic, a second run on another stores
    the findings, report and critique it would have stored from any other
    session, the default one included, and at most one finding.  Nothing
    of the first run is left. *)
Theorem C8_second_run_overwrites_first
        (env : Env) {P : Pydantic} {L : Json.Limits} (topic1 topic2 : str)
        (st0 other : App.Session) (tr0 : list Event) :
  let '(_, st1, tr1) := App.run_research env topic1 st0 tr0 in
  let '(o2, st2, tr2) := App.run_research env topic2 st1 tr1 in
  let '(o2', st2', tr2') := App.run_research env topic2 other tr1 in
  o2 = o2' /\ tr2 = tr2' /\
  App.collected_facts st2 = App.collected_facts st2' /\
  App.report_result st2 = App.report_result st2' /\
  App.critique_result st2 = App.critique_result st2' /\
  App.research_done st2 = App.research_done st2' /\
  List.length (App.collected_facts st2) <= 1.
Proof.
  destruct (App.run_research env topic1 st0 tr0) as [[o1 st1] tr1].
  destruct (app_run_research_spec env topic2 tr1)
    as (raw & evs1 & _ & _ & _ & Hrun).
  destruct (App.make_plan topic2 raw) as [plan|e].
  - destruct Hrun as (notes & evs2 & report & evs3 & critique & evs4
                      & _ & _ & _ & _ & _ & _ & _ & Hrun).
    rewrite (Hrun st1), (Hrun other). simpl. repeat split; auto.
  - rewrite (Hrun st1), (Hrun other). simpl. repeat split; auto.
Qed.

(* ================================================================== *)
(** * The extractor and the plan *)
(* ================================================================== *)

(** C3. [safe_json_parse] is a total function of the text and the
    fallback, so it raises nothing; and whenever the strict parse of the
    payload fails, its result is the fallback itself. *)
Theorem C3_parse_failure_returns_fallback
        {L : Json.Limits} (text : str) (fallback : json) :
  Json.loads (App.payload_of text) = None ->
  App.safe_json_parse text fallback = fallback.
Proof.
  intros H. unfold App.safe_json_parse. rewrite H. reflexivity.
Qed.

Lemma C3_parse_failure_returns_fallback_witness :
  App.safe_json_parse (L := Scenario.cpython)
    (Scenario.dq (py "{'topic': 'x', 'search_queries': ['a',]}"))
    (fallback_dict (py "x"))
  = fallback_dict (py "x").
Proof.
  apply C3_parse_failure_returns_fallback. vm_compute. reflexivity.
Defined.

(** C10. A text without braces that is a JSON value other than an object
    comes back from [safe_json_parse] as that value, not as the fallback
    mapping; the constructor of the plan then meets a [TypeError], which
    the handler for [ValidationError] does not catch. *)
Theorem C10_non_mapping_is_returned
        {P : Pydantic} {L : Json.Limits} (text : str) (fallback : Json.dict)
        (v : json)
        (topic : str) :
  App.extract_json text = None ->
  Json.loads text = Some v ->
  is_mapping v = false ->
  App.safe_json_parse text (JObject fallback) = v /\
  is_mapping (App.safe_json_parse text (JObject fallback)) = false /\
  exists msg, App.make_plan topic text = Raised (TypeError msg).
Proof.
  intros Hex Hv Hm.
  assert (Hs : forall fb, App.safe_json_parse text fb = v).
  { intros fb. unfold App.safe_json_parse, App.payload_of.
    rewrite Hex, Hv. reflexivity. }
  rewrite Hs. repeat split; auto.
  unfold App.make_plan. rewrite Hs.
  destruct v; simpl in *; try discriminate; eexists; reflexivity.
Qed.

Lemma C10_non_mapping_is_returned_witness :
  App.safe_json_parse (L := Scenario.cpython) (py "[1, 2]")
                      (fallback_dict (py "x"))
  = JArray [JNumber (py "1"); JNumber (py "2")].
Proof.
  refine (proj1 (@C10_non_mapping_is_returned pydantic_strict
                   Scenario.cpython (py "[1, 2]")
                   _ (JArray [JNumber (py "1"); JNumber (py "2")]) (py "x")
                   _ _ _));
    vm_compute; reflexivity.
Defined.

(** C7, as the code has it.  The planning stage yields the fallback plan
    of the submitted topic, or the plan validated from the object that the
    triage text parses to, or no plan at all when the text parses to
    something that is not an object.  The fallback plan has one search
    query and one focus area, and its topic is the submitted topic as it
    is. *)
Theorem C7_plan_is_fallback_or_parsed
        {P : Pydantic} {L : Json.Limits} (topic triage_raw : str) :
  match App.make_plan topic triage_raw with
  | Return plan =>
      plan = fallback_plan topic
      \/ exists d, Json.loads (App.payload_of triage_raw) = Some (JObject d)
                   /\ validate_plan d = Some plan
  | Raised e =>
      exists v msg, Json.loads (App.payload_of triage_raw) = Some v
                    /\ is_mapping v = false /\ e = TypeError msg
  end
  /\ search_queries (fallback_plan topic) = [topic]
  /\ focus_areas (fallback_plan topic) = [py "General overview"]
  /\ Models.topic (fallback_plan topic) = topic.
Proof.
  split; [|repeat split].
  unfold App.make_plan, App.safe_json_parse.
  destruct (Json.loads (App.payload_of triage_raw)) as [v|].
  - destruct v as [| | | | |d];
      try (simpl; eexists; eexists; repeat split; reflexivity).
    unfold new_ResearchPlan at 1.
    destruct (validate_plan d) as [plan|] eqn:E.
    + right. exists d. auto.
    + cbn [is_ValidationError]. rewrite new_ResearchPlan_fallback.
      left. reflexivity.
  - rewrite new_ResearchPlan_fallback. left. reflexivity.
Qed.

(** C7 as stated fails: a triage text that is a valid plan with an empty
    topic and empty lists is taken as it is, and an empty submitted topic
    gives the fallback plan an empty topic. *)
Lemma C7_counterexample_empty_plan :
  App.make_plan (P := pydantic_strict) (L := Scenario.cpython)
                (py "x") Scenario.empty_plan_text
  = Return {| topic := []; search_queries := []; focus_areas := [] |}
  /\ App.make_plan (P := pydantic_strict) (L := Scenario.cpython)
                   [] (py "no plan")
     = Return {| topic := []; search_queries := [[]];
                 focus_areas := [py "General overview"] |}.
Proof. split; vm_compute; reflexivity. Qed.

(* ================================================================== *)
(** * The run trigger *)
(* ================================================================== *)

(** [GeminiAgent.run] of [main.py] calls the service once and lets its
    exception through; the retry is the business of [app.py] alone. *)
Lemma main_run_does_not_retry (env : Env) (self : GeminiAgent) (prompt : str)
      (st : Main.Session) (tr : list Event) (e : Exception) :
  let full_prompt :=
    instructions self ++ nl ++ nl ++ py "User query:" ++ nl ++ prompt in
  service env tr (model_name self) full_prompt = Raised e ->
  Main.run env self prompt st tr
  = (Raised e, st, tr ++ [Generate (model_name self) full_prompt]).
Proof.
  intros full_prompt H. unfold Main.run. run_step. fold full_prompt.
  rewrite H. reflexivity.
Qed.

(** C4, on [main.py].  The service is down: [GeminiAgent.run] calls it
    once, does not sleep, does not try again, and the exception of that
    one call goes to the caller in place of a diagnostic text. *)
Theorem C4_main_run_raises_at_first_failure :
  let '(o, st', tr') :=
    Main.run Scenario.unavailable Main.research_agent (py "Topic: cats")
             Scenario.main_defaults [] in
  o = Raised (Error (py "503 Service Unavailable"))
  /\ st' = Scenario.main_defaults
  /\ tr' = [Generate gemini_flash
              (instructions Main.research_agent ++ nl ++ nl
                 ++ py "User query:" ++ nl ++ py "Topic: cats")]
  /\ calls_made tr' = 1
  /\ seconds_slept tr' = 0.
Proof. vm_compute. repeat split; reflexivity. Qed.

(** The trigger of [main.py] catches whatever the run raises: it shows the
    error, stores a report that holds it, and marks the session done. *)
Lemma main_trigger_catches (env : Env) {P : Pydantic} (user_topic : str)
      (st : Main.Session) (tr : list Event) :
  match Main.run_research env user_topic st tr with
  | (Return _, st1, tr1) =>
      Main.trigger env true user_topic st tr = (Return tt, st1, tr1)
  | (Raised e, st1, tr1) =>
      Main.trigger env true user_topic st tr
      = (Return tt,
         {| Main.conversation_id := Main.conversation_id st1;
            Main.collected_facts := Main.collected_facts st1;
            Main.research_done := true;
            Main.report_result :=
              Some (py "# Research on " ++ user_topic ++ nl ++ nl
                      ++ py "Error: " ++ exn_str e) |},
         tr1 ++ [StError (py "Error: " ++ exn_str e)])
  end.
Proof.
  unfold Main.trigger. run_step.
  destruct (Main.run_research env user_topic st tr) as [[[[]|e] st1] tr1];
    reflexivity.
Qed.

(** The trigger of [app.py] has no handler: the exception of the run is
    its own, and the session stays as the run reset it. *)
Lemma app_trigger_propagates (env : Env) {P : Pydantic} {L : Json.Limits}
      (user_topic : str)
      (st : App.Session) (tr : list Event) (e : Exception) :
  truthy user_topic = true ->
  fst (fst (App.run_research env user_topic st tr)) = Raised e ->
  exists tr',
    App.trigger env true user_topic st tr = (Raised e, blank st, tr')
    /\ errors_shown tr' = errors_shown tr.
Proof.
  intros Ht He. unfold App.trigger. rewrite Ht. simpl andb. cbv iota.
  destruct (app_run_research_spec env user_topic tr)
    as (raw & evs1 & _ & Hev1 & _ & Hrun).
  destruct (App.make_plan user_topic raw) as [plan|e'].
  - destruct Hrun as (notes & evs2 & report & evs3 & critique & evs4
                      & _ & _ & _ & _ & _ & _ & _ & Hrun).
    rewrite Hrun in He. discriminate.
  - rewrite Hrun in He |- *. simpl in He. injection He as ->.
    eexists. split; [reflexivity|].
    clear - Hev1. induction tr as [|x tr IH]; simpl.
    + induction Hev1 as [|x evs Hx _ IH]; simpl; auto.
      destruct x; simpl in *; tauto.
    + destruct x; simpl; rewrite ?IH; reflexivity.
Qed.

(** C6, on [app.py].  The triage stage answers with a JSON array: the run
    raises a [TypeError] that nothing catches, no error message is shown,
    and the session is left not done, without report or critique. *)
Theorem C6_app_trigger_leaves_session_pending :
  let env := Scenario.answering (py "[1, 2]") (py "Some text.")
                                (Return JNull) in
  let '(o, st', tr') :=
    App.trigger (P := pydantic_strict) (L := Scenario.cpython) env true
                Scenario.solar Scenario.app_defaults [] in
  o = Raised (TypeError
                (py "__main__.ResearchPlan() argument after ** must be a mapping, not list"))
  /\ App.research_done st' = false
  /\ App.report_result st' = None
  /\ App.critique_result st' = None
  /\ errors_shown tr' = [].
Proof. vm_compute. repeat split; reflexivity. Qed.

(* ================================================================== *)
(** * Evaluation of the triage text *)
(* ================================================================== *)

(** [app.py] evaluates nothing. *)
Lemma app_never_evaluates (env : Env) {P : Pydantic} {L : Json.Limits}
      (topic : str)
      (st : App.Session) (tr : list Event) :
  evaluated (snd (App.run_research env topic st tr)) = evaluated tr.
Proof.
  destruct (app_run_research_spec env topic tr)
    as (raw & evs1 & _ & Hev1 & _ & Hrun).
  destruct (App.make_plan topic raw) as [plan|e].
  - destruct Hrun as (notes & evs2 & report & evs3 & critique & evs4
                      & _ & _ & _ & Hev & _ & _ & _ & Hrun).
    rewrite Hrun. simpl snd.
    rewrite !Forall_app in Hev. destruct Hev as (Hev2 & Hev3 & Hev4).
    rewrite !evaluated_app. cbn [app evaluated]. rewrite !evaluated_app.
    rewrite (client_events_evaluate_nothing Hev1),
      (client_events_evaluate_nothing Hev2),
      (client_events_evaluate_nothing Hev3),
      (client_events_evaluate_nothing Hev4).
    simpl. rewrite app_nil_r. reflexivity.
  - rewrite Hrun. simpl snd. rewrite evaluated_app.
    rewrite (client_events_evaluate_nothing Hev1). apply app_nil_r.
Qed.

(** [main.py] hands every triage text that starts with a brace to
    [eval]. *)
Lemma main_evaluates_braced_text (env : Env) {P : Pydantic} (topic raw : str)
      (st : Main.Session) (tr : list Event) :
  service env tr gemini_flash
    (instructions Main.triage_agent ++ nl ++ nl ++ py "User query:" ++ nl
       ++ py "Research this topic thoroughly: " ++ topic)
  = Return (Some raw) ->
  raw <> [] ->
  startswith (py "{") (strip raw) = true ->
  In raw (evaluated (snd (Main.run_research env topic st tr))).
Proof.
  intros Hs Hne Hb.
  unfold Main.run_research, Main.run.
  run_step. change (model_name Main.triage_agent) with gemini_flash.
  rewrite Hs.
  assert (Hor : str_or raw (py "No response.") = raw)
    by (unfold str_or; destruct raw; [congruence|reflexivity]).
  rewrite Hor, Hb.
  repeat (match goal with
          | |- context [match ?x with _ => _ end] =>
              lazymatch x with
              | py_eval _ _ _ => destruct x
              | service _ _ _ _ => destruct x
              | new_ResearchPlan _ => destruct x
              end
          end; cbv beta iota);
    cbn [snd]; rewrite !evaluated_app; cbn [evaluated];
    rewrite !in_app_iff; cbn [In]; intuition.
Qed.

(** C5, on [main.py].  The triage stage answers with a Python expression
    in braces: the run hands that very text to [eval], and then goes on
    with the fallback plan. *)
Theorem C5_main_evaluates_triage_text :
  let env := Scenario.answering Scenario.injected (py "Some text.")
                                (Return (JArray [JNumber (py "0")])) in
  let '(o, st', tr') :=
    Main.run_research (P := pydantic_strict) env (py "cats")
                      Scenario.main_defaults [] in
  o = Return tt
  /\ evaluated tr' = [Scenario.injected]
  /\ plans_shown tr' = [fallback_plan (py "cats")].
Proof. vm_compute. repeat split; reflexivity. Qed.

(* ================================================================== *)
(** * The name of the download *)
(* ================================================================== *)

Lemma title_from_ascii {U : CaseData} (s : str) (b : bool) :
  all_ascii s ->
  title_from (U := U) b s = title_from (U := ascii_case) b s.
Proof.
  intros H. revert b. induction H as [|c s Hc _ IH]; intros b; simpl; auto.
  rewrite (lower_full_ascii Hc), (title_full_ascii Hc), (is_cased_ascii Hc).
  apply N.ltb_lt in Hc. rewrite Hc. rewrite IH. reflexivity.
Qed.

Lemma title_ascii {U : CaseData} (s : str) :
  all_ascii s -> title (U := U) s = title (U := ascii_case) s.
Proof. apply title_from_ascii. Qed.

Lemma py_all_ascii_report : all_ascii (py "Report").
Proof. repeat constructor. Qed.

Lemma py_all_ascii_agra : all_ascii (py "best shops in Agra").
Proof. repeat constructor. Qed.

Lemma replace_char_removes (a b : char) (s : str) :
  a <> b -> forallb (fun x => negb (char_eqb x a)) (replace_char a b s) = true.
Proof.
  intros Hab. induction s as [|c s IH]; simpl; auto.
  rewrite IH, andb_true_r. unfold char_eqb.
  destruct (N.eqb c a) eqn:E.
  - apply negb_true_iff, N.eqb_neq. congruence.
  - rewrite E. reflexivity.
Qed.



(** [main.py] names the download after the topic as typed: it title-cases
    the heading of the page, not the file name. *)
Lemma main_file_name_keeps_case :
  Main.report_file_name (py "best shops in Agra")
  = py "best_shops_in_Agra.md".
Proof. reflexivity. Qed.

(* ================================================================== *)
(** * The fenced block *)
(* ================================================================== *)

Section RegexFacts.
Variable R : Type.
Implicit Types (k : Re.cont R) (s w : str) (cap : option str).

Lemma startswith_app w s : startswith w (w ++ s) = true.
Proof.
  induction w as [|c w IH]; simpl; auto.
  unfold char_eqb. rewrite N.eqb_refl. exact IH.
Qed.

Lemma startswith_prefix w a z :
  List.length w <= List.length a ->
  startswith w (a ++ z) = startswith w a.
Proof.
  revert a. induction w as [|c w IH]; intros a Hl; simpl; auto.
  destruct a as [|x a]; simpl in *; [lia|].
  rewrite IH by lia. reflexivity.
Qed.

Lemma exec_Lit_app w s cap k :
  Re.exec (Re.Lit w) (w ++ s) cap k = k s cap.
Proof.
  induction w as [|c w IH]; simpl; auto.
  unfold char_eqb. rewrite N.eqb_refl. exact IH.
Qed.

Lemma exec_Lit_fail w s cap k :
  startswith w s = false -> Re.exec (Re.Lit w) s cap k = None.
Proof.
  revert s. induction w as [|c w IH]; intros s H; simpl in *.
  - discriminate.
  - destruct s as [|x s]; auto.
    unfold char_eqb in *. rewrite N.eqb_sym.
    destruct (N.eqb c x); simpl in *; auto.
Qed.

(** Greedy whitespace before a text that does not start with
    whitespace: all of it is consumed. *)
Lemma greedy_space_skip ws s cap k a n :
  forallb is_space ws = true ->
  lstrip s = s ->
  List.length (ws ++ s) <= n ->
  k s cap = Some a ->
  Re.star_greedy (Re.exec (R := R) Re.Space) k n (ws ++ s) cap = Some a.
Proof.
  intros Hws Hs. revert n.
  induction ws as [|c ws IH]; intros n Hn Hk.
  - simpl. destruct n as [|n]; simpl; auto.
    destruct s as [|x s]; simpl; [exact Hk|].
    simpl in Hs. destruct (is_space x); [|exact Hk].
    exfalso.
    assert (Hl : List.length (lstrip s) <= List.length s).
    { clear. induction s as [|y s IH]; simpl; auto.
      destruct (is_space y); simpl; lia. }
    rewrite Hs in Hl. simpl in Hl. lia.
  - simpl in Hws. apply andb_true_iff in Hws as [Hc Hws].
    destruct n as [|n]; [simpl in Hn; lia|].
    simpl. rewrite Hc. unfold Re.progress at 1.
    replace (List.length (ws ++ s) <? List.length (c :: ws ++ s)) with true
      by (symmetry; apply Nat.ltb_lt; simpl; lia).
    rewrite IH; auto. simpl in Hn. lia.
Qed.

(** Greedy whitespace fails when what follows fails after every
    whitespace prefix. *)
Lemma greedy_space_fail s cap k n :
  (forall w s', s = w ++ s' -> forallb is_space w = true ->
                k s' cap = None) ->
  Re.star_greedy (Re.exec (R := R) Re.Space) k n s cap = None.
Proof.
  revert s. induction n as [|n IH]; intros s H.
  - simpl. apply (H [] s); reflexivity.
  - simpl. destruct s as [|x s].
    + apply (H [] []); reflexivity.
    + destruct (is_space x) eqn:Ex.
      * unfold Re.progress at 1.
        destruct (List.length s <? List.length (x :: s)).
        -- rewrite IH.
           ++ apply (H [] (x :: s)); reflexivity.
           ++ intros w s' -> Hw. apply (H (x :: w) s'); auto.
              simpl. rewrite Ex. exact Hw.
        -- apply (H [] (x :: s)); reflexivity.
      * apply (H [] (x :: s)); reflexivity.
Qed.

(** Lazy [.*?] stops at the first place where what follows succeeds. *)
Lemma lazy_any_first b s cap k a n :
  List.length (b ++ s) <= n ->
  (forall b1 b2, b = b1 ++ b2 -> b2 <> [] -> k (b2 ++ s) cap = None) ->
  k s cap = Some a ->
  Re.star_lazy (Re.exec (R := R) Re.Any) k n (b ++ s) cap = Some a.
Proof.
  revert n. induction b as [|c b IH]; intros n Hn Hb Hk.
  - simpl. destruct n; simpl; rewrite Hk; reflexivity.
  - destruct n as [|n]; [simpl in Hn; lia|].
    assert (Hfirst : k (c :: b ++ s) cap = None)
      by (apply (Hb [] (c :: b)); [reflexivity|discriminate]).
    simpl. rewrite Hfirst.
    unfold Re.progress at 1.
    replace (List.length (b ++ s) <? List.length (c :: b ++ s)) with true
      by (symmetry; apply Nat.ltb_lt; simpl; lia).
    apply IH; auto.
    + simpl in Hn. lia.
    + intros b1 b2 -> Hne. apply (Hb (c :: b1) b2); auto.
Qed.
End RegexFacts.

Lemma lstrip_length (s : str) : List.length (lstrip s) <= List.length s.
Proof.
  induction s as [|y s IH]; simpl; auto.
  destruct (is_space y); simpl; lia.
Qed.

Lemma closes_fence_split (w s' : str) :
  forallb is_space w = true ->
  closes_fence (w ++ s') = false ->
  startswith (py "```") s' = false.
Proof.
  intros Hw. induction w as [|c w IH]; simpl in *.
  - unfold closes_fence. intros H.
    destruct (startswith (py "```") s') eqn:E; auto.
    destruct s' as [|x s']; [discriminate|].
    change (py "```") with [96%N; 96%N; 96%N] in E.
    cbn [startswith] in E. apply andb_true_iff in E as [Ex _].
    apply N.eqb_eq in Ex. subst x. exact H.
  - apply andb_true_iff in Hw as [Hc Hw].
    unfold closes_fence in *. simpl. rewrite Hc. auto.
Qed.

Lemma startswith_fence_brace (a x : str) :
  startswith (py "```") a = false ->
  startswith (py "```") (a ++ 125%N :: x) = false.
Proof.
  destruct a as [|a1 [|a2 [|a3 a]]]; simpl; unfold char_eqb;
    intros H;
    repeat match goal with
           | |- context [N.eqb 96 ?c] => destruct (N.eqb 96 c) eqn:?
           end; simpl in *; auto.
Qed.

Lemma closes_fence_brace (b x : str) :
  closes_fence b = false -> closes_fence (b ++ 125%N :: x) = false.
Proof.
  unfold closes_fence. induction b as [|c b IH]; intros H.
  - reflexivity.
  - simpl in *. destruct (is_space c); auto.
    apply (startswith_fence_brace (c :: b)). exact H.
Qed.

Lemma no_early_close_spec (body b1 b2 : str) :
  no_early_close body = true ->
  body = b1 ++ 125%N :: b2 ->
  closes_fence b2 = false.
Proof.
  revert body. induction b1 as [|c b1 IH]; intros body H ->; simpl in H.
  - apply andb_true_iff in H as [H _]. apply negb_true_iff in H. exact H.
  - apply andb_true_iff in H as [_ H]. eapply IH; eauto.
Qed.

Lemma firstn_group (obj rest : str) :
  firstn (List.length (obj ++ rest) - List.length rest) (obj ++ rest) = obj.
Proof.
  rewrite length_app.
  replace (List.length obj + List.length rest - List.length rest)
    with (List.length obj + 0) by lia.
  rewrite firstn_app_2. simpl. apply app_nil_r.
Qed.

Lemma after_group_closes (R : Type) (k : Re.cont R) (ws2 post : str)
      (cap : option str) (a : R) :
  forallb is_space ws2 = true ->
  k post cap = Some a ->
  after_group k (ws2 ++ py "```" ++ post) cap = Some a.
Proof.
  intros Hws Hk. unfold after_group. cbn [Re.exec].
  apply greedy_space_skip; auto.
Qed.

Lemma after_group_fails (R : Type) (k : Re.cont R) (s : str)
      (cap : option str) :
  closes_fence s = false -> after_group k s cap = None.
Proof.
  intros H. unfold after_group. cbn [Re.exec].
  apply greedy_space_fail. intros w s' -> Hw.
  apply exec_Lit_fail. eapply closes_fence_split; eauto.
Qed.

(** The group of the fence on an object without early close. *)
Lemma fence_group (body ws2 post : str) (cap : option str) :
  forallb is_space ws2 = true ->
  no_early_close body = true ->
  let obj := 123%N :: body ++ [125%N] in
  Re.exec (Re.Group (Re.Cat [Re.Chr 123%N; Re.Star Re.Lazy Re.Any;
                             Re.Chr 125%N]))
          (obj ++ ws2 ++ py "```" ++ post) cap
          (after_group (fun _ c => Some c))
  = Some (Some obj).
Proof.
  intros Hws Hbody obj.
  set (rest := ws2 ++ py "```" ++ post).
  cbn [Re.exec Re.Cat]. unfold obj at 1. cbn [app char_eqb].
  rewrite N.eqb_refl.
  rewrite <- app_assoc. cbn [app].
  apply lazy_any_first.
  - lia.
  - intros b1 b2 -> Hne.
    destruct b2 as [|c b2]; [congruence|]. cbn [app].
    unfold char_eqb. destruct (N.eqb c 125) eqn:Ec; auto.
    apply N.eqb_eq in Ec. subst c.
    apply after_group_fails. apply closes_fence_brace.
    eapply no_early_close_spec; eauto.
  - unfold char_eqb. rewrite N.eqb_refl.
    apply after_group_closes; auto.
    fold rest. rewrite firstn_group. reflexivity.
Qed.

(** The pattern of the fence at the opening fence of such a block. *)
Lemma match_fence (tag ws1 body ws2 post : str) :
  tag = [] \/ tag = py "json" ->
  forallb is_space ws1 = true ->
  forallb is_space ws2 = true ->
  no_early_close body = true ->
  let obj := 123%N :: body ++ [125%N] in
  Re.match_at App.fence_re
    (py "```" ++ tag ++ ws1 ++ obj ++ ws2 ++ py "```" ++ post)
  = Some (Some obj).
Proof.
  intros Htag Hws1 Hws2 Hbody obj.
  unfold Re.match_at, App.fence_re.
  cbn [Re.exec Re.Cat Re.Opt].
  rewrite exec_Lit_app.
  assert (Hrest :
            Re.star_greedy (Re.exec Re.Space)
              (fun s' cap' =>
                 Re.exec (Re.Group (Re.Cat [Re.Chr 123%N;
                                            Re.Star Re.Lazy Re.Any;
                                            Re.Chr 125%N]))
                         s' cap' (after_group (fun _ c => Some c)))
              (List.length (ws1 ++ obj ++ ws2 ++ py "```" ++ post))
              (ws1 ++ obj ++ ws2 ++ py "```" ++ post) None
            = Some (Some obj)).
  { apply greedy_space_skip; auto.
    apply fence_group; auto. }
  destruct Htag as [-> | ->].
  - cbn [app].
    rewrite exec_Lit_fail.
    + exact Hrest.
    + destruct ws1 as [|c ws1]; [reflexivity|].
      simpl in Hws1. apply andb_true_iff in Hws1 as [Hc _].
      change (py "json") with [106%N; 115%N; 111%N; 110%N].
      cbn [app startswith]. unfold char_eqb.
      destruct (N.eqb 106 c) eqn:E; auto.
      apply N.eqb_eq in E. subst c. discriminate.
  - rewrite exec_Lit_app.
    match goal with
    | |- match ?X with _ => _ end = _ =>
        replace X with (Some (Some obj)) by (symmetry; exact Hrest)
    end.
    reflexivity.
Qed.

Lemma match_fence_needs_backticks (s : str) :
  startswith (py "```") s = false -> Re.match_at App.fence_re s = None.
Proof.
  intros H. unfold Re.match_at, App.fence_re. cbn [Re.exec Re.Cat].
  apply exec_Lit_fail. exact H.
Qed.

Lemma search_fence_skips (pre t : str) :
  no_fence_in pre (py "```") = true ->
  Re.search App.fence_re (pre ++ py "```" ++ t)
  = Re.search App.fence_re (py "```" ++ t).
Proof.
  induction pre as [|c pre IH]; intros H; [reflexivity|].
  cbn [no_fence_in] in H. apply andb_true_iff in H as [Hc H].
  apply negb_true_iff in Hc.
  change ((c :: pre) ++ py "```" ++ t) with (c :: pre ++ py "```" ++ t).
  cbn [Re.search].
  rewrite match_fence_needs_backticks.
  - apply IH. exact H.
  - change (c :: pre ++ py "```" ++ t) with ((c :: pre) ++ py "```" ++ t).
    rewrite app_assoc. rewrite startswith_prefix; auto.
    rewrite length_app. simpl. lia.
Qed.




(* ================================================================== *)
(** * What the extractor returns *)
(* ================================================================== *)

Section MatcherSound.
Variable R : Type.
Implicit Types (k : Re.cont R) (s w : str) (cap : option str).

(** The matcher reports only words of the pattern: a success of [exec] on
    a pattern without group is a success of what follows, after a word of
    the pattern, the group untouched. *)
Lemma exec_sound (r : Re.regex) :
  group_free r = true ->
  forall s cap k a,
    Re.exec r s cap k = Some a ->
    exists w s', s = w ++ s' /\ lang r w /\ k s' cap = Some a.
Proof.
  induction r as [|c|p|r1 IH1 r2 IH2|r1 IH1 r2 IH2|g r1 IH1|r1 IH1];
    intros Hg s cap k a H; cbn [Re.exec group_free] in *.
  - exists [], s. repeat split; auto. constructor.
  - destruct s as [|x s]; [discriminate|].
    unfold char_eqb in H. destruct (N.eqb x c) eqn:E; [|discriminate].
    apply N.eqb_eq in E. subst x.
    exists [c], s. repeat split; auto. constructor.
  - destruct s as [|x s]; [discriminate|].
    destruct (p x) eqn:E; [|discriminate].
    exists [x], s. repeat split; auto. constructor; auto.
  - apply andb_true_iff in Hg as [Hg1 Hg2].
    apply (IH1 Hg1) in H as (w1 & s1 & -> & L1 & H).
    apply (IH2 Hg2) in H as (w2 & s2 & -> & L2 & H).
    exists (w1 ++ w2), s2. rewrite app_assoc. repeat split; auto.
    constructor; auto.
  - apply andb_true_iff in Hg as [Hg1 Hg2].
    destruct (Re.exec r1 s cap k) as [a0|] eqn:E.
    + injection H as ->. apply (IH1 Hg1) in E as (w & s' & -> & L & E).
      exists w, s'. repeat split; auto. apply lang_Alt_l; auto.
    + apply (IH2 Hg2) in H as (w & s' & -> & L & H).
      exists w, s'. repeat split; auto. apply lang_Alt_r; auto.
  - specialize (IH1 Hg).
    assert (Loop : forall n s,
               (Re.star_greedy (Re.exec r1) k n s cap = Some a
                \/ Re.star_lazy (Re.exec r1) k n s cap = Some a) ->
               exists w s', s = w ++ s' /\ lang (Re.Star g r1) w
                            /\ k s' cap = Some a).
    { clear H s. induction n as [|n IHn]; intros s H.
      - simpl in H. exists [], s. repeat split; [constructor | tauto].
      - assert (Step : Re.exec r1 s cap
                         (Re.progress s (Re.star_greedy (Re.exec r1) k n))
                       = Some a
                       \/ Re.exec r1 s cap
                            (Re.progress s (Re.star_lazy (Re.exec r1) k n))
                          = Some a
                       \/ k s cap = Some a).
        { destruct H as [H|H]; simpl in H.
          - destruct (Re.exec r1 s cap
                        (Re.progress s (Re.star_greedy (Re.exec r1) k n)))
              as [a0|]; [injection H as ->|]; auto.
          - destruct (k s cap) as [a0|]; [injection H as ->|]; auto. }
        destruct Step as [E|[E|E]].
        + apply IH1 in E as (w1 & s1 & -> & L1 & E).
          unfold Re.progress in E.
          destruct (List.length s1 <? List.length (w1 ++ s1)); [|discriminate].
          destruct (IHn s1 (or_introl E)) as (w2 & s2 & -> & L2 & E2).
          exists (w1 ++ w2), s2. rewrite app_assoc. repeat split; auto.
          apply lang_Star_cons; auto.
        + apply IH1 in E as (w1 & s1 & -> & L1 & E).
          unfold Re.progress in E.
          destruct (List.length s1 <? List.length (w1 ++ s1)); [|discriminate].
          destruct (IHn s1 (or_intror E)) as (w2 & s2 & -> & L2 & E2).
          exists (w1 ++ w2), s2. rewrite app_assoc. repeat split; auto.
          apply lang_Star_cons; auto.
        + exists [], s. repeat split; auto. constructor. }
    destruct g; apply (Loop (List.length s) s); auto.
  - discriminate.
Qed.
End MatcherSound.

Lemma search_sound (r : Re.regex) (text : str) (m : option str) :
  Re.search r text = Some m ->
  exists pre s, text = pre ++ s /\ Re.match_at r s = Some m.
Proof.
  induction text as [|c text IH]; cbn [Re.search]; intros H.
  - destruct (Re.match_at r []) eqn:E; [|discriminate].
    injection H as ->. exists [], []. auto.
  - destruct (Re.match_at r (c :: text)) eqn:E.
    + injection H as ->. exists [], (c :: text). auto.
    + apply IH in H as (pre & s & -> & H). exists (c :: pre), s. auto.
Qed.

Lemma lang_braces (any : Re.regex) (w : str) :
  lang (Re.Cat [Re.Chr 123%N; any; Re.Chr 125%N]) w -> in_braces w.
Proof.
  cbn [Re.Cat]. intros H.
  inversion H as [| | |? ? w1 w23 H1 H23| | | | |]; subst.
  inversion H1; subst.
  inversion H23 as [| | |? ? w2 w3 H2 H3| | | | |]; subst.
  inversion H3 as [| | |? ? w4 w5 H4 H5| | | | |]; subst.
  inversion H4; subst. inversion H5; subst.
  exists w2. reflexivity.
Qed.

(** The group of a match, on a pattern made of a group between two parts
    without group: it is a word of the group, found in the text. *)
Lemma group_sound (before inner after : Re.regex) (s : str) (g : option str) :
  group_free before = true -> group_free inner = true ->
  group_free after = true ->
  Re.match_at (Re.Seq before (Re.Seq (Re.Group inner) after)) s = Some g ->
  exists w, g = Some w /\ lang inner w /\ occurs_in w s.
Proof.
  intros Gb Gi Ga H. unfold Re.match_at in H. cbn [Re.exec] in H.
  apply (exec_sound before Gb) in H as (w0 & s0 & -> & _ & H).
  apply (exec_sound inner Gi) in H as (w & s1 & -> & L & H).
  apply (exec_sound after Ga) in H as (w2 & s2 & -> & _ & H).
  injection H as <-.
  exists w. split; [|split; auto].
  - f_equal. apply firstn_group.
  - exists w0, (w2 ++ s2). reflexivity.
Qed.

Lemma occurs_in_suffix (w pre s : str) :
  occurs_in w s -> occurs_in w (pre ++ s).
Proof.
  intros (a & b & ->). exists (pre ++ a), b. rewrite app_assoc. reflexivity.
Qed.

Lemma fence_re_shape (s : str) :
  Re.match_at App.fence_re s
  = Re.match_at (Re.Seq fence_before (Re.Seq (Re.Group braces_lazy) fence_after)) s.
Proof. reflexivity. Qed.

Lemma brace_re_shape (s : str) :
  Re.match_at App.brace_re s
  = Re.match_at (Re.Seq Re.Eps (Re.Seq (Re.Group braces_greedy) Re.Eps)) s.
Proof. reflexivity. Qed.

Lemma extract_json_sound (text g : str) :
  App.extract_json text = Some g ->
  in_braces g /\ occurs_in g text.
Proof.
  unfold App.extract_json. destruct (negb (truthy text)); [discriminate|].
  destruct (Re.search App.fence_re text) as [m|] eqn:Ef.
  - intros H. injection H as <-.
    apply search_sound in Ef as (pre & s & -> & Ef).
    rewrite fence_re_shape in Ef.
    apply group_sound in Ef as (w & -> & L & O); try reflexivity.
    split; [eapply lang_braces; exact L | apply occurs_in_suffix; exact O].
  - destruct (Re.search App.brace_re text) as [m|] eqn:Eb; [|discriminate].
    intros H. injection H as <-.
    apply search_sound in Eb as (pre & s & -> & Eb).
    rewrite brace_re_shape in Eb.
    apply group_sound in Eb as (w & -> & L & O); try reflexivity.
    split; [eapply lang_braces; exact L | apply occurs_in_suffix; exact O].
Qed.

(** X1. Whatever [extract_json] returns is a part of the text that opens
    with a brace and closes with a brace. *)
Theorem X1_extract_json_returns_braced_part (text g : str) :
  App.extract_json text = Some g ->
  in_braces g /\ occurs_in g text.
Proof. apply extract_json_sound. Qed.

Lemma X1_extract_json_returns_braced_part_witness :
  in_braces (py "{b}") /\ occurs_in (py "{b}") (py "a {b} c").
Proof.
  apply X1_extract_json_returns_braced_part. reflexivity.
Defined.

Section GreedyAny.
Variable R : Type.
Implicit Types (k : Re.cont R) (s : str) (cap : option str).

(** Greedy [.*] fails when what follows fails at every place. *)
Lemma greedy_any_fail s cap k n :
  (forall u t, s = u ++ t -> k t cap = None) ->
  Re.star_greedy (Re.exec (R := R) Re.Any) k n s cap = None.
Proof.
  revert s. induction n as [|n IH]; intros s H.
  - simpl. apply (H [] s); reflexivity.
  - simpl. destruct s as [|x s].
    + apply (H [] []); reflexivity.
    + unfold Re.progress at 1.
      destruct (List.length s <? List.length (x :: s)).
      * rewrite IH.
        -- apply (H [] (x :: s)); reflexivity.
        -- intros u t ->. apply (H (x :: u) t); reflexivity.
      * apply (H [] (x :: s)); reflexivity.
Qed.

(** Greedy [.*] stops at the last place where what follows succeeds. *)
Lemma greedy_any_last b t cap k a n :
  List.length (b ++ t) <= n ->
  k t cap = Some a ->
  (forall u t', t = u ++ t' -> u <> [] -> k t' cap = None) ->
  Re.star_greedy (Re.exec (R := R) Re.Any) k n (b ++ t) cap = Some a.
Proof.
  intros Hn Hk Hlast. revert n Hn. induction b as [|c b IH]; intros n Hn.
  - simpl. destruct n as [|n]; simpl; auto.
    destruct t as [|x t]; simpl; auto.
    unfold Re.progress at 1.
    destruct (List.length t <? List.length (x :: t)); auto.
    rewrite greedy_any_fail; auto.
    intros u t' ->. apply (Hlast (x :: u) t'); [reflexivity|discriminate].
  - destruct n as [|n]; [simpl in Hn; lia|].
    simpl. unfold Re.progress at 1.
    replace (List.length (b ++ t) <? List.length (c :: b ++ t)) with true
      by (symmetry; apply Nat.ltb_lt; simpl; lia).
    rewrite IH; auto. simpl in Hn. lia.
Qed.

(** Greedy [.*] succeeds as soon as what follows succeeds somewhere. *)
Lemma greedy_any_some b t cap k a n :
  List.length (b ++ t) <= n ->
  k t cap = Some a ->
  exists a', Re.star_greedy (Re.exec (R := R) Re.Any) k n (b ++ t) cap
             = Some a'.
Proof.
  intros Hn Hk. revert n Hn. induction b as [|c b IH]; intros n Hn.
  - simpl. destruct n as [|n]; simpl; eauto.
    match goal with |- context [match ?x with _ => _ end] => destruct x end;
      eauto.
  - destruct n as [|n]; [simpl in Hn; lia|].
    simpl. unfold Re.progress at 1.
    replace (List.length (b ++ t) <? List.length (c :: b ++ t)) with true
      by (symmetry; apply Nat.ltb_lt; simpl; lia).
    destruct (IH n) as [a' E]; [simpl in Hn; lia|].
    simpl in E. rewrite E. eauto.
Qed.
End GreedyAny.

Lemma match_brace_needs_brace (s : str) :
  startswith (py "{") s = false -> Re.match_at App.brace_re s = None.
Proof.
  intros H. unfold Re.match_at, App.brace_re. cbn [Re.exec Re.Cat].
  destruct s as [|x s]; auto.
  change (py "{") with [123%N] in H. cbn [startswith] in H.
  unfold char_eqb in *. rewrite N.eqb_sym.
  destruct (N.eqb 123 x); [discriminate H|reflexivity].
Qed.

(** The pattern of the brace block at an opening brace: the group runs to
    the last closing brace. *)
Lemma match_brace_last (mid post : str) :
  forallb (fun c => negb (char_eqb c 125%N)) post = true ->
  Re.match_at App.brace_re (123%N :: mid ++ 125%N :: post)
  = Some (Some (123%N :: mid ++ [125%N])).
Proof.
  intros Hpost. unfold Re.match_at, App.brace_re. cbn [Re.exec Re.Cat].
  unfold char_eqb at 1. rewrite N.eqb_refl.
  apply greedy_any_last.
  - lia.
  - unfold char_eqb. rewrite N.eqb_refl. f_equal. f_equal.
    replace (123%N :: mid ++ 125%N :: post)
      with ((123%N :: mid ++ [125%N]) ++ post)
      by (simpl; rewrite <- app_assoc; reflexivity).
    apply firstn_group.
  - intros u t' E Hu.
    destruct u as [|x u]; [congruence|]. injection E as _ ->.
    clear - Hpost.
    assert (Ht : forallb (fun c => negb (char_eqb c 125%N)) t' = true).
    { rewrite forallb_app in Hpost. apply andb_true_iff in Hpost. tauto. }
    destruct t' as [|y t']; auto.
    simpl in Ht. apply andb_true_iff in Ht as [Hy _].
    apply negb_true_iff in Hy. rewrite Hy. reflexivity.
Qed.

Lemma match_brace_some (mid post : str) :
  exists m, Re.match_at App.brace_re (123%N :: mid ++ 125%N :: post) = Some m.
Proof.
  unfold Re.match_at, App.brace_re. cbn [Re.exec Re.Cat].
  unfold char_eqb at 1. rewrite N.eqb_refl.
  apply greedy_any_some with (a := Some (123%N :: mid ++ [125%N])).
  - lia.
  - unfold char_eqb. rewrite N.eqb_refl. f_equal. f_equal.
    replace (123%N :: mid ++ 125%N :: post)
      with ((123%N :: mid ++ [125%N]) ++ post)
      by (simpl; rewrite <- app_assoc; reflexivity).
    apply firstn_group.
Qed.

Lemma search_some_later (r : Re.regex) (pre s : str) :
  (exists m, Re.match_at r s = Some m) ->
  exists m, Re.search r (pre ++ s) = Some m.
Proof.
  intros [m H]. induction pre as [|c pre IH].
  - destruct s; cbn [app Re.search]; rewrite H; eauto.
  - cbn [app Re.search]. destruct (Re.match_at r (c :: pre ++ s)); eauto.
Qed.

Lemma search_brace_skips (pre s : str) :
  forallb (fun c => negb (char_eqb c 123%N)) pre = true ->
  Re.search App.brace_re (pre ++ 123%N :: s)
  = Re.search App.brace_re (123%N :: s).
Proof.
  induction pre as [|c pre IH]; intros H; [reflexivity|].
  cbn [forallb] in H. apply andb_true_iff in H as [Hc H].
  apply negb_true_iff in Hc.
  cbn [app Re.search]. rewrite match_brace_needs_brace.
  - apply IH. exact H.
  - change (py "{") with [123%N]. cbn [startswith].
    unfold char_eqb in *. rewrite N.eqb_sym, Hc. reflexivity.
Qed.

Lemma search_fence_none (text : str) :
  no_fence_in text [] = true -> Re.search App.fence_re text = None.
Proof.
  induction text as [|c text IH]; intros H.
  - reflexivity.
  - cbn [no_fence_in] in H. apply andb_true_iff in H as [Hc H].
    apply negb_true_iff in Hc. rewrite app_nil_r in Hc.
    cbn [Re.search]. rewrite match_fence_needs_backticks by exact Hc.
    apply IH. exact H.
Qed.

(** X2. In a text without triple backtick, [extract_json] returns the
    part from the first opening brace to the last closing brace, and that
    part is the payload handed to [json.loads]: the words around it are
    dropped, and what lies between two objects is kept. *)
Theorem X2_brace_block_runs_from_first_to_last
        (pre mid post : str) :
  let text := pre ++ 123%N :: mid ++ 125%N :: post in
  no_fence_in text [] = true ->
  forallb (fun c => negb (char_eqb c 123%N)) pre = true ->
  forallb (fun c => negb (char_eqb c 125%N)) post = true ->
  App.extract_json text = Some (123%N :: mid ++ [125%N])
  /\ App.payload_of text = 123%N :: mid ++ [125%N].
Proof.
  intros text Hf Hpre Hpost.
  assert (E : App.extract_json text = Some (123%N :: mid ++ [125%N])).
  { unfold App.extract_json.
    replace (truthy text) with true by (unfold text; destruct pre; reflexivity).
    cbn [negb]. rewrite (search_fence_none _ Hf).
    unfold text. rewrite search_brace_skips by exact Hpre.
    cbn [Re.search]. rewrite match_brace_last by exact Hpost. reflexivity. }
  split; [exact E|].
  unfold App.payload_of. rewrite E. reflexivity.
Qed.

Lemma X2_brace_block_runs_from_first_to_last_witness :
  App.extract_json (py "Plan: {a} and {b}. Done")
  = Some (py "{a} and {b}")
  /\ App.payload_of (py "Plan: {a} and {b}. Done") = py "{a} and {b}".
Proof.
  apply (@X2_brace_block_runs_from_first_to_last
           (py "Plan: ") (py "a} and {b") (py ". Done")); reflexivity.
Defined.

(** X3. [extract_json] finds something exactly when the text holds an
    opening brace with a closing brace somewhere after it; on every other
    text, the empty one included, it returns [None] and the whole text is
    the payload. *)
Theorem X3_extract_json_finds_iff_brace_pair (text : str) :
  (has_brace_pair text <-> exists g, App.extract_json text = Some g)
  /\ (App.extract_json text = None -> App.payload_of text = text).
Proof.
  split; [split|].
  - intros (pre & mid & post & ->).
    unfold App.extract_json.
    replace (truthy (pre ++ 123%N :: mid ++ 125%N :: post)) with true
      by (destruct pre; reflexivity).
    cbn [negb].
    destruct (Re.search App.fence_re _); [eauto|].
    destruct (@search_some_later App.brace_re pre _
                (match_brace_some mid post)) as [m Hm].
    unfold str, char in *. rewrite Hm.
    eauto.
  - intros [g H]. apply extract_json_sound in H.
    destruct H as [[mid ->] (pre & post & ->)].
    exists pre, mid, post. simpl. rewrite <- app_assoc. reflexivity.
  - intros H. unfold App.payload_of. rewrite H. reflexivity.
Qed.

(* ================================================================== *)
(** * More on the model client *)
(* ================================================================== *)

Lemma calls_made_app (a b : list Event) :
  calls_made (a ++ b) = calls_made a + calls_made b.
Proof.
  induction a as [|e a IH]; simpl; auto.
  destruct e; simpl; rewrite ?IH; reflexivity.
Qed.

Lemma seconds_slept_app (a b : list Event) :
  seconds_slept (a ++ b) = seconds_slept a + seconds_slept b.
Proof.
  induction a as [|e a IH]; simpl; auto.
  destruct e; simpl; rewrite ?IH; lia.
Qed.

Lemma app_run_cost (env : Env) (self : GeminiAgent) (prompt : str)
      (tr : list Event) :
  exists text evs,
    text <> [] /\ run_cost evs /\ Forall client_event evs /\
    forall st, App.run env self prompt st tr = (Return text, st, tr ++ evs).
Proof.
  unfold App.run, App.run_loop, seq.
  set (fp := App.full_prompt_of self prompt).
  set (g := Generate (model_name self) fp).
  pose (diagnostic := fun e => App.warning_sign ++ py " Error from "
                                 ++ name self ++ py ": " ++ exn_str e).
  assert (Hd : forall e, diagnostic e <> []) by (intros e; discriminate).
  run_step. fold g.
  destruct (service env tr (model_name self) fp) as [t1|e1] eqn:E1.
  { exists (text_or_placeholder t1), [g].
    repeat split; [apply text_or_no_response | left; auto
                  | repeat constructor ]. }
  destruct (service env ((tr ++ [g]) ++ [Sleep (2 * (0 + 1))])
              (model_name self) fp) as [t2|e2] eqn:E2.
  { exists (text_or_placeholder t2), [g; Sleep 2; g].
    repeat split; [apply text_or_no_response | right; left; auto
                  | repeat constructor
                  | rewrite <- !app_assoc; reflexivity]. }
  match goal with
  | |- context [service env ?h (model_name self) fp] =>
      lazymatch h with
      | context [Sleep (2 * (1 + 1))] =>
          destruct (service env h (model_name self) fp) as [t3|e3] eqn:E3
      end
  end.
  { exists (text_or_placeholder t3), [g; Sleep 2; g; Sleep 4; g].
    repeat split; [apply text_or_no_response | right; right; auto
                  | repeat constructor
                  | rewrite <- !app_assoc; reflexivity]. }
  exists (diagnostic e3), [g; Sleep 2; g; Sleep 4; g].
  repeat split; [apply Hd | right; right; auto | repeat constructor
                | rewrite <- !app_assoc; reflexivity].
Qed.

(** X4. [GeminiAgent.run] of [app.py] never raises and never touches the
    session; it returns a non-empty text and only adds to the trace: one
    call and no sleep, or two calls and 2 seconds of sleep, or three calls
    and 6 seconds. *)
Theorem X4_run_always_returns_within_three_calls
        (env : Env) (self : GeminiAgent) (prompt : str)
        (st : App.Session) (tr : list Event) :
  exists text evs,
    App.run env self prompt st tr = (Return text, st, tr ++ evs)
    /\ text <> []
    /\ ((calls_made evs = 1 /\ seconds_slept evs = 0)
        \/ (calls_made evs = 2 /\ seconds_slept evs = 2)
        \/ (calls_made evs = 3 /\ seconds_slept evs = 6)).
Proof.
  destruct (app_run_cost env self prompt tr) as (text & evs & H1 & H2 & _ & H).
  exists text, evs. auto.
Qed.

(** X5. The first attempt that succeeds ends [GeminiAgent.run] of
    [app.py]: a success at once costs one call and no sleep; a failure
    followed by a success costs two calls and one sleep of 2 seconds; two
    failures followed by a success cost three calls and sleeps of 2 and 4
    seconds.  The text is the reply, or [No response.] when the reply is
    empty or has no text. *)
Theorem X5_run_returns_first_success
        (env : Env) (self : GeminiAgent) (prompt : str)
        (st : App.Session) (tr : list Event) (reply : option str) :
  let m := model_name self in
  let fp := App.full_prompt_of self prompt in
  let g := Generate m fp in
  (service env tr m fp = Return reply ->
   App.run env self prompt st tr
   = (Return (text_or_placeholder reply), st, tr ++ [g]))
  /\ (forall e1,
         service env tr m fp = Raised e1 ->
         service env (tr ++ [g; Sleep 2]) m fp = Return reply ->
         App.run env self prompt st tr
         = (Return (text_or_placeholder reply), st, tr ++ [g; Sleep 2; g]))
  /\ (forall e1 e2,
         service env tr m fp = Raised e1 ->
         service env (tr ++ [g; Sleep 2]) m fp = Raised e2 ->
         service env (tr ++ [g; Sleep 2; g; Sleep 4]) m fp = Return reply ->
         App.run env self prompt st tr
         = (Return (text_or_placeholder reply), st,
            tr ++ [g; Sleep 2; g; Sleep 4; g])).
Proof.
  intros m fp g.
  assert (A2 : (tr ++ [g]) ++ [Sleep (2 * (0 + 1))] = tr ++ [g; Sleep 2])
    by (rewrite <- app_assoc; reflexivity).
  assert (A3 : (((tr ++ [g]) ++ [Sleep (2 * (0 + 1))]) ++ [g])
                 ++ [Sleep (2 * (1 + 1))]
               = tr ++ [g; Sleep 2; g; Sleep 4])
    by (rewrite <- !app_assoc; reflexivity).
  repeat split.
  - intros E1. unfold App.run, App.run_loop, seq. fold fp. run_step.
    fold m. rewrite E1. reflexivity.
  - intros e1 E1 E2. unfold App.run, App.run_loop, seq. fold fp. run_step.
    fold m. fold g. rewrite E1, A2, E2. rewrite <- !app_assoc. reflexivity.
  - intros e1 e2 E1 E2 E3. unfold App.run, App.run_loop, seq. fold fp.
    run_step. fold m. fold g. rewrite E1, A2, E2.
    replace ((tr ++ [g; Sleep 2]) ++ [g]) with (tr ++ [g; Sleep 2; g])
      by (rewrite <- app_assoc; reflexivity).
    replace ((tr ++ [g; Sleep 2; g]) ++ [Sleep (2 * (1 + 1))])
      with (tr ++ [g; Sleep 2; g; Sleep 4])
      by (rewrite <- app_assoc; reflexivity).
    rewrite E3. rewrite <- !app_assoc. reflexivity.
Qed.

Lemma X5_run_returns_first_success_witness :
  App.run (flaky 1 (Some (py "Findings."))) App.research_agent (py "Topic")
          Scenario.app_defaults []
  = (Return (py "Findings."), Scenario.app_defaults,
     let g := Generate gemini_flash
                (App.full_prompt_of App.research_agent (py "Topic")) in
     [g; Sleep 2; g]).
Proof.
  refine (proj1 (proj2 (@X5_run_returns_first_success
                          (flaky 1 (Some (py "Findings."))) App.research_agent
                          (py "Topic") Scenario.app_defaults []
                          (Some (py "Findings."))))
                (Error (py "429 Too Many Requests")) _ _);
    reflexivity.
Defined.

(* ================================================================== *)
(** * More on the workflow of [app.py] *)
(* ================================================================== *)

(** A run of [run_research], with the cost of its stages. *)
Lemma app_run_research_cost (env : Env) {P : Pydantic} {L : Json.Limits}
      (topic : str)
      (tr : list Event) :
  exists raw evs1,
    run_cost evs1 /\
    (forall st, App.run env App.triage_agent (App.triage_prompt topic) st tr
                = (Return raw, st, tr ++ evs1)) /\
    match App.make_plan topic raw with
    | Raised e =>
        forall st,
          App.run_research env topic st tr = (Raised e, blank st, tr ++ evs1)
    | Return plan =>
        exists evs2 evs3 evs4 st_done,
          run_cost evs2 /\ run_cost evs3 /\ run_cost evs4 /\
          forall st,
            App.run_research env topic st tr
            = (Return tt, st_done st,
               tr ++ evs1 ++ [StJson plan] ++ evs2 ++ evs3 ++ evs4)
    end.
Proof.
  destruct (app_run_cost env App.triage_agent (App.triage_prompt topic) tr)
    as (raw & evs1 & _ & Hc1 & _ & H1).
  exists raw, evs1. repeat split; auto.
  destruct (App.make_plan topic raw) as [plan|e] eqn:Eplan.
  - set (tr1 := (tr ++ evs1) ++ [StJson plan]).
    destruct (app_run_cost env App.research_agent (App.notes_prompt env plan) tr1)
      as (notes & evs2 & _ & Hc2 & _ & H2).
    destruct (app_run_cost env App.editor_agent (App.editor_prompt plan notes)
                (tr1 ++ evs2))
      as (report & evs3 & _ & Hc3 & _ & H3).
    destruct (app_run_cost env App.critic_agent report ((tr1 ++ evs2) ++ evs3))
      as (critique & evs4 & _ & Hc4 & _ & H4).
    exists evs2, evs3, evs4.
    eexists (fun st => _). repeat split; auto.
    intros st. unfold App.run_research. run_step.
    rewrite H1, Eplan. fold tr1. rewrite H2, H3, H4.
    subst tr1. rewrite <- !app_assoc. reflexivity.
  - intros st. unfold App.run_research. run_step.
    rewrite H1, Eplan. reflexivity.
Qed.

(** X6. A run of [run_research] in [app.py] only adds to the trace, and
    what it adds holds at least one and at most twelve calls of the model
    service and at most 24 seconds of sleep. *)
Theorem X6_run_research_cost_is_bounded
        (env : Env) {P : Pydantic} {L : Json.Limits} (topic : str)
        (st : App.Session) (tr : list Event) :
  exists evs,
    snd (App.run_research env topic st tr) = tr ++ evs
    /\ 1 <= calls_made evs <= 12
    /\ seconds_slept evs <= 24.
Proof.
  destruct (app_run_research_cost env topic tr)
    as (raw & evs1 & Hc1 & _ & Hrun).
  assert (B : forall evs, run_cost evs ->
                          1 <= calls_made evs <= 3 /\ seconds_slept evs <= 6).
  { unfold run_cost. intros evs H. lia. }
  destruct (App.make_plan topic raw) as [plan|e].
  - destruct Hrun as (evs2 & evs3 & evs4 & st_done & Hc2 & Hc3 & Hc4 & Hrun).
    rewrite Hrun. eexists. split; [reflexivity|].
    rewrite !calls_made_app, !seconds_slept_app. simpl.
    apply B in Hc1, Hc2, Hc3, Hc4. lia.
  - rewrite Hrun. eexists. split; [reflexivity|].
    apply B in Hc1. lia.
Qed.

Lemma make_plan_raises_iff {P : Pydantic} {L : Json.Limits} (topic raw : str) :
  match Json.loads (App.payload_of raw) with
  | Some v =>
      if is_mapping v
      then exists plan, App.make_plan topic raw = Return plan
      else exists msg, App.make_plan topic raw = Raised (TypeError msg)
  | None => App.make_plan topic raw = Return (fallback_plan topic)
  end.
Proof.
  unfold App.make_plan, App.safe_json_parse.
  destruct (Json.loads (App.payload_of raw)) as [v|].
  - destruct v as [| | | | |d]; try (simpl; eexists; reflexivity).
    cbn [is_mapping]. unfold new_ResearchPlan at 1.
    destruct (validate_plan d); [eauto|].
    cbn [is_ValidationError]. rewrite new_ResearchPlan_fallback. eauto.
  - rewrite new_ResearchPlan_fallback. reflexivity.
Qed.



(** X8. After a run of [run_research] in [app.py] the conversation
    identifier is what it was, and the report tab shows the report exactly
    when the run returned: a run that returned left a non-empty report and
    a non-empty critique, a run that raised left neither. *)
Theorem X8_report_tab_shows_iff_run_returned
        (env : Env) {P : Pydantic} {L : Json.Limits} (topic : str)
        (st : App.Session) (tr : list Event) :
  let '(o, st', _) := App.run_research env topic st tr in
  App.conversation_id st' = App.conversation_id st
  /\ App.report_shown st'
     = match o with Return _ => true | Raised _ => false end
  /\ match App.critique_result st' with
     | Some c => truthy c
     | None => false
     end = App.report_shown st'.
Proof.
  destruct (app_run_research_spec env topic tr)
    as (raw & evs1 & _ & _ & _ & Hrun).
  destruct (App.make_plan topic raw) as [plan|e].
  - destruct Hrun as (notes & evs2 & report & evs3 & critique & evs4
                      & _ & Hr & Hc & _ & _ & _ & _ & Hrun).
    rewrite Hrun. unfold App.report_shown. simpl.
    destruct report; [congruence|]. destruct critique; [congruence|].
    auto.
  - rewrite Hrun. unfold App.report_shown. simpl. auto.
Qed.

Lemma plans_shown_run_trace (tr evs1 evs : list Event) (plan : ResearchPlan) :
  Forall client_event evs1 -> Forall client_event evs ->
  plans_shown (tr ++ evs1 ++ [StJson plan] ++ evs) = plans_shown tr ++ [plan].
Proof.
  intros H1 H. rewrite !plans_shown_app.
  rewrite (client_events_show_no_plan H1), (client_events_show_no_plan H).
  reflexivity.
Qed.

(** X9. In a run of [run_research] that returns, the stages feed one
    another.  The plan is made from what the triage agent returned on the
    topic, and it is the plan shown; the notes are what the research agent
    returned on the prompt built from that plan; the report is what the
    editor returned on the prompt built from the plan and those notes; the
    critique is what the critic returned on that report and nothing else.
    The session holds, beside its identifier, exactly these: the notes as
    its one finding, under the label of [app.py] and the time read after
    the research stage, the report, the critique, and the done flag. *)
Theorem X9_stages_feed_one_another
        (env : Env) {P : Pydantic} {L : Json.Limits} (topic : str)
        (st st' : App.Session) (tr tr' : list Event) :
  App.run_research env topic st tr = (Return tt, st', tr') ->
  exists raw plan notes report critique tr1 tr2 tr3,
    (forall s, App.run env App.triage_agent (App.triage_prompt topic) s tr
               = (Return raw, s, tr1))
    /\ App.make_plan topic raw = Return plan
    /\ plans_shown tr' = plans_shown tr ++ [plan]
    /\ (forall s, App.run env App.research_agent (App.notes_prompt env plan)
                          s (tr1 ++ [StJson plan])
                  = (Return notes, s, tr2))
    /\ (forall s, App.run env App.editor_agent
                          (App.editor_prompt plan notes) s tr2
                  = (Return report, s, tr3))
    /\ (forall s, App.run env App.critic_agent report s tr3
                  = (Return critique, s, tr'))
    /\ st' = {| App.conversation_id := App.conversation_id st;
                App.collected_facts :=
                  [ {| fact := notes;
                       source := py "Gemini (summarized findings)";
                       timestamp := now env tr2 |} ];
                App.research_done := true;
                App.report_result := Some report;
                App.critique_result := Some critique |}.
Proof.
  intros Hret.
  destruct (app_run_spec env App.triage_agent (App.triage_prompt topic) tr)
    as (raw & evs1 & _ & Hev1 & _ & H1).
  destruct (App.make_plan topic raw) as [plan|e] eqn:Eplan.
  - set (tr1 := tr ++ evs1).
    destruct (app_run_spec env App.research_agent (App.notes_prompt env plan)
                (tr1 ++ [StJson plan]))
      as (notes & evs2 & _ & Hev2 & _ & H2).
    set (tr2 := (tr1 ++ [StJson plan]) ++ evs2).
    destruct (app_run_spec env App.editor_agent
                (App.editor_prompt plan notes) tr2)
      as (report & evs3 & _ & Hev3 & _ & H3).
    set (tr3 := tr2 ++ evs3).
    destruct (app_run_spec env App.critic_agent report tr3)
      as (critique & evs4 & _ & Hev4 & _ & H4).
    assert (Hrun : App.run_research env topic st tr
                   = (Return tt,
                      {| App.conversation_id := App.conversation_id st;
                         App.collected_facts :=
                           [ {| fact := notes; source := App.source_label;
                                timestamp := now env tr2 |} ];
                         App.research_done := true;
                         App.report_result := Some report;
                         App.critique_result := Some critique |},
                      tr3 ++ evs4)).
    { unfold App.run_research. run_step.
      rewrite H1, Eplan. fold tr1. rewrite H2. fold tr2.
      rewrite H3. fold tr3. rewrite H4. reflexivity. }
    rewrite Hrun in Hret. injection Hret as <- <-.
    exists raw, plan, notes, report, critique, tr1, tr2, tr3.
    repeat split; auto.
    subst tr3 tr2 tr1. rewrite <- !app_assoc.
    apply plans_shown_run_trace; [assumption|].
    rewrite !Forall_app. auto.
  - exfalso.
    assert (Hrun : App.run_research env topic st tr
                   = (Raised e, blank st, tr ++ evs1)).
    { unfold App.run_research. run_step. rewrite H1, Eplan. reflexivity. }
    rewrite Hrun in Hret. discriminate.
Qed.

Lemma X9_stages_feed_one_another_witness :
  exists raw plan notes report critique tr1 tr2 tr3,
    (forall s, App.run solar_env App.triage_agent
                       (App.triage_prompt Scenario.solar) s []
               = (Return raw, s, tr1))
    /\ App.make_plan (P := pydantic_strict) (L := Scenario.cpython)
                     Scenario.solar raw
       = Return plan
    /\ plans_shown (snd solar_run) = plans_shown [] ++ [plan]
    /\ (forall s, App.run solar_env App.research_agent
                          (App.notes_prompt solar_env plan)
                          s (tr1 ++ [StJson plan])
                  = (Return notes, s, tr2))
    /\ (forall s, App.run solar_env App.editor_agent
                          (App.editor_prompt plan notes) s tr2
                  = (Return report, s, tr3))
    /\ (forall s, App.run solar_env App.critic_agent report s tr3
                  = (Return critique, s, snd solar_run))
    /\ snd (fst solar_run)
       = {| App.conversation_id :=
              App.conversation_id Scenario.app_defaults;
            App.collected_facts :=
              [ {| fact := notes;
                   source := py "Gemini (summarized findings)";
                   timestamp := now solar_env tr2 |} ];
            App.research_done := true;
            App.report_result := Some report;
            App.critique_result := Some critique |}.
Proof.
  apply (@X9_stages_feed_one_another solar_env pydantic_strict
           Scenario.cpython Scenario.solar Scenario.app_defaults).
  vm_compute. reflexivity.
Defined.

(** X10. A triage object that lacks one of the three keys, or whose
    [search_queries] or [focus_areas] is not an array, never reaches the
    research stage: the plan is the fallback plan of the topic. *)
Theorem X10_incomplete_object_gives_fallback
        {P : Pydantic} {L : Json.Limits} (topic triage_raw : str)
        (d : Json.dict) :
  Json.loads (App.payload_of triage_raw) = Some (JObject d) ->
  Json.dict_get d (py "topic") = None
  \/ Json.dict_get d (py "search_queries") = None
  \/ Json.dict_get d (py "focus_areas") = None
  \/ (exists v, Json.dict_get d (py "search_queries") = Some v
                /\ is_array v = false)
  \/ (exists v, Json.dict_get d (py "focus_areas") = Some v
                /\ is_array v = false) ->
  App.make_plan topic triage_raw = Return (fallback_plan topic).
Proof.
  intros Hl Hbad. unfold App.make_plan, App.safe_json_parse. rewrite Hl.
  unfold new_ResearchPlan at 1.
  assert (Hv : validate_plan d = None).
  { unfold validate_plan.
    destruct Hbad as [H|[H|[H|[(v & H & Hv)|(v & H & Hv)]]]]; rewrite H.
    - reflexivity.
    - destruct (Json.dict_get d (py "topic")); reflexivity.
    - destruct (Json.dict_get d (py "topic")),
        (Json.dict_get d (py "search_queries")); reflexivity.
    - destruct (Json.dict_get d (py "topic")),
        (Json.dict_get d (py "focus_areas")); try reflexivity.
      destruct (str_validate j); try reflexivity.
      destruct v; simpl in *; try discriminate; reflexivity.
    - destruct (Json.dict_get d (py "topic")),
        (Json.dict_get d (py "search_queries")); try reflexivity.
      destruct (str_validate j), (validate_list j0); try reflexivity;
        destruct v; simpl in *; try discriminate; reflexivity. }
  rewrite Hv. cbn [is_ValidationError].
  apply new_ResearchPlan_fallback.
Qed.

Lemma X10_incomplete_object_gives_fallback_witness :
  App.make_plan (P := pydantic_strict) (L := Scenario.cpython) (py "x")
                (Scenario.dq (py "{'topic': 'y', 'focus_areas': 'all'}"))
  = Return (fallback_plan (py "x")).
Proof.
  apply (@X10_incomplete_object_gives_fallback pydantic_strict
           Scenario.cpython (py "x")
           (Scenario.dq (py "{'topic': 'y', 'focus_areas': 'all'}"))
           [(py "topic", JString (py "y"));
            (py "focus_areas", JString (py "all"))]).
  - vm_compute. reflexivity.
  - right. left. reflexivity.
Defined.

(* ================================================================== *)
(** * The limits of the interpreter *)
(* ================================================================== *)

Lemma payload_without_brace (text : str) :
  ~ In 123%N text -> App.payload_of text = text.
Proof.
  intros Hno. unfold App.payload_of.
  destruct (App.extract_json text) as [g|] eqn:E; [|reflexivity].
  exfalso. apply extract_json_sound in E.
  destruct E as [[mid ->] (pre & post & ->)].
  apply Hno. rewrite in_app_iff. right. left. reflexivity.
Qed.

Lemma integer_text_has_no_brace (negative : bool) (digits : str) :
  forallb Json.is_digit digits = true ->
  ~ In 123%N (integer_text negative digits).
Proof.
  intros Hd Hin. unfold integer_text in Hin.
  apply in_app_or in Hin. destruct Hin as [Hin|Hin].
  - destruct negative; simpl in Hin; [|tauto].
    destruct Hin as [Hin|[]]. discriminate.
  - rewrite forallb_forall in Hd. apply Hd in Hin. discriminate.
Qed.

(** X19. A triage text that opens more arrays, one inside the other, than
    the interpreter lets the decoder nest makes [json.loads] raise whatever
    the text holds after them; when [extract_json] finds nothing in the
    text, [safe_json_parse] returns the fallback and the plan is the
    fallback plan of the topic. *)
Theorem X19_too_deep_nesting_gives_fallback
        {P : Pydantic} {L : Json.Limits} (n : nat) (rest topic : str)
        (fallback : json) :
  Json.nesting_limit < n ->
  App.extract_json (opens_arrays n rest) = None ->
  Json.loads (opens_arrays n rest) = None
  /\ App.safe_json_parse (opens_arrays n rest) fallback = fallback
  /\ App.make_plan topic (opens_arrays n rest)
     = Return (fallback_plan topic).
Proof.
  intros Hn Hex.
  pose proof (JsonFacts.loads_too_deep rest Hn) as Hl.
  assert (Hp : App.payload_of (opens_arrays n rest) = opens_arrays n rest)
    by (unfold App.payload_of; rewrite Hex; reflexivity).
  repeat split.
  - exact Hl.
  - unfold App.safe_json_parse. rewrite Hp, Hl. reflexivity.
  - apply make_plan_of_invalid_json. rewrite Hp. exact Hl.
Qed.

Lemma X19_too_deep_nesting_gives_fallback_witness :
  Json.loads (L := Scenario.near_limit) (py "[[[1]]]") = None
  /\ App.safe_json_parse (L := Scenario.near_limit) (py "[[[1]]]")
                         (fallback_dict (py "x"))
     = fallback_dict (py "x")
  /\ App.make_plan (P := pydantic_strict) (L := Scenario.near_limit)
                   (py "x") (py "[[[1]]]")
     = Return (fallback_plan (py "x")).
Proof.
  apply (@X19_too_deep_nesting_gives_fallback pydantic_strict
           Scenario.near_limit 3 (py "1]]]") (py "x")
           (fallback_dict (py "x"))).
  - apply Nat.ltb_lt. reflexivity.
  - vm_compute. reflexivity.
Defined.

(** X20. A triage text that is one integer of more digits than the
    interpreter converts, with a minus sign or without, makes
    [json.loads] raise: [safe_json_parse] returns the fallback and the
    plan is the fallback plan of the topic. *)
Theorem X20_long_integer_gives_fallback
        {P : Pydantic} {L : Json.Limits} (negative : bool)
        (digits topic : str) (fallback : json) :
  forallb Json.is_digit digits = true ->
  640 < List.length digits ->
  0 < Json.int_max_str_digits ->
  Json.int_max_str_digits < List.length digits ->
  Json.loads (integer_text negative digits) = None
  /\ App.safe_json_parse (integer_text negative digits) fallback = fallback
  /\ App.make_plan topic (integer_text negative digits)
     = Return (fallback_plan topic).
Proof.
  intros Hd H640 H0 Hmax.
  pose proof (JsonFacts.loads_long_integer negative _ Hd H640 H0 Hmax) as Hl.
  pose proof (@payload_without_brace _
                (@integer_text_has_no_brace negative _ Hd)) as Hp.
  repeat split.
  - exact Hl.
  - unfold App.safe_json_parse. rewrite Hp, Hl. reflexivity.
  - apply make_plan_of_invalid_json. rewrite Hp. exact Hl.
Qed.

Lemma X20_long_integer_gives_fallback_witness :
  Json.loads (L := Scenario.near_limit)
             (integer_text true (repeat 55%N 641))
  = None
  /\ App.safe_json_parse (L := Scenario.near_limit)
                         (integer_text true (repeat 55%N 641))
                         (fallback_dict (py "x"))
     = fallback_dict (py "x")
  /\ App.make_plan (P := pydantic_strict) (L := Scenario.near_limit)
                   (py "x") (integer_text true (repeat 55%N 641))
     = Return (fallback_plan (py "x")).
Proof.
  apply (@X20_long_integer_gives_fallback pydantic_strict
           Scenario.near_limit true (repeat 55%N 641) (py "x")
           (fallback_dict (py "x"))).
  - vm_compute. reflexivity.
  - apply Nat.ltb_lt. vm_compute. reflexivity.
  - apply Nat.ltb_lt. vm_compute. reflexivity.
  - apply Nat.ltb_lt. vm_compute. reflexivity.
Defined.

(* ================================================================== *)
(** * More on [main.py] *)
(* ================================================================== *)

Ltac main_cases :=
  repeat (match goal with
          | |- context [match ?x with _ => _ end] =>
              lazymatch x with
              | service _ _ _ _ => destruct x
              | new_ResearchPlan _ => destruct x
              | startswith _ _ => destruct x
              end
          | |- context [if ?x then _ else _] =>
              lazymatch x with
              | startswith _ _ => destruct x
              end
          end; cbv beta iota).

(** What a run of [main.py] that does not reach [eval] leaves: done, one
    finding and a non-empty report when it returns; not done and no report
    when it raises. *)
Lemma main_run_research_spec (env : Env) {P : Pydantic} (topic : str)
      (st : Main.Session) (tr : list Event) :
  skips_eval env topic tr ->
  let '(o, st', tr') := Main.run_research env topic st tr in
  Main.conversation_id st' = Main.conversation_id st
  /\ evaluated tr' = evaluated tr
  /\ match o with
     | Return _ =>
         Main.research_done st' = true
         /\ (exists r, Main.report_result st' = Some r /\ r <> [])
         /\ exists f, Main.collected_facts st' = [f]
                      /\ source f = py "Gemini Research" /\ fact f <> []
     | Raised _ =>
         Main.research_done st' = false
         /\ Main.report_result st' = None
         /\ List.length (Main.collected_facts st') <= 1
     end.
Proof.
  unfold skips_eval, Main.run_research, Main.run. run_step.
  change (model_name Main.triage_agent) with gemini_flash.
  fold (main_triage_prompt topic).
  destruct (service env tr gemini_flash (main_triage_prompt topic))
    as [reply|e].
  - fold (text_or_placeholder reply). intros ->.
    rewrite new_ResearchPlan_fallback.
    main_cases; cbn [fst snd]; rewrite ?evaluated_app; cbn [evaluated];
      rewrite ?app_nil_r; cbn; repeat split; auto;
      try (eexists; split; [reflexivity|apply text_or_no_response]);
      try (eexists; split;
           [reflexivity|split; [reflexivity|apply text_or_no_response]]).
  - intros _. rewrite evaluated_app. cbn. rewrite app_nil_r.
    repeat split; auto.
Qed.

(** X11. In [main.py], a press of the start button whose run does not
    reach [eval] ends with the session marked done and a non-empty report
    stored, so the report tab shows something: the trigger returns whether
    the run returned or raised, nothing was evaluated, and when the run
    raised the trigger shows one error message and stores a report that
    ends with the text of the exception. *)
Theorem X11_main_trigger_marks_done_without_eval
        (env : Env) {P : Pydantic} (user_topic : str)
        (st : Main.Session) (tr : list Event) :
  skips_eval env user_topic tr ->
  let '(o, st', tr') := Main.trigger env true user_topic st tr in
  o = Return tt
  /\ Main.research_done st' = true
  /\ (exists r, Main.report_result st' = Some r /\ r <> [])
  /\ evaluated tr' = evaluated tr
  /\ match Main.run_research env user_topic st tr with
     | (Return _, _, tr1) => tr' = tr1
     | (Raised e, _, tr1) =>
         tr' = tr1 ++ [StError (py "Error: " ++ exn_str e)]
         /\ Main.report_result st'
            = Some (py "# Research on " ++ user_topic ++ nl ++ nl
                      ++ py "Error: " ++ exn_str e)
     end.
Proof.
  intros Hskip.
  pose proof (main_trigger_catches env user_topic st tr) as Ht.
  pose proof (@main_run_research_spec env _ user_topic st tr Hskip) as Hs.
  destruct (Main.run_research env user_topic st tr) as [[[[]|e] st1] tr1];
    rewrite Ht.
  - destruct Hs as (_ & He & Hd & Hr & _). auto.
  - destruct Hs as (_ & He & _).
    repeat split; auto.
    + eexists. split; [reflexivity|discriminate].
    + rewrite evaluated_app. cbn. rewrite app_nil_r. exact He.
Qed.

Lemma X11_main_trigger_marks_done_without_eval_witness :
  let '(o, st', tr') :=
    Main.trigger (P := pydantic_strict) Scenario.unavailable true
                 (py "cats") Scenario.main_defaults [] in
  o = Return tt
  /\ Main.research_done st' = true
  /\ (exists r, Main.report_result st' = Some r /\ r <> [])
  /\ evaluated tr' = evaluated []
  /\ tr' = [ Generate gemini_flash (main_triage_prompt (py "cats"));
             StError (py "Error: 503 Service Unavailable") ]
     /\ Main.report_result st'
        = Some (py "# Research on cats" ++ nl ++ nl
                  ++ py "Error: 503 Service Unavailable").
Proof.
  exact (@X11_main_trigger_marks_done_without_eval
           Scenario.unavailable pydantic_strict (py "cats")
           Scenario.main_defaults [] I).
Defined.

(** X12. [main.py] evaluates nothing when the triage reply, stripped, does
    not start with an opening brace: the plan shown is then the fallback
    plan of the topic, whatever the later stages do. *)
Theorem X12_main_evaluates_only_braced_text
        (env : Env) {P : Pydantic} (topic : str) (reply : option str)
        (st : Main.Session) (tr : list Event) :
  service env tr gemini_flash (main_triage_prompt topic) = Return reply ->
  startswith (py "{") (strip (text_or_placeholder reply)) = false ->
  evaluated (snd (Main.run_research env topic st tr)) = evaluated tr
  /\ plans_shown (snd (Main.run_research env topic st tr))
     = plans_shown tr ++ [fallback_plan topic].
Proof.
  intros Hs Hb.
  unfold Main.run_research, Main.run.
  run_step. change (model_name Main.triage_agent) with gemini_flash.
  fold (main_triage_prompt topic). rewrite Hs.
  fold (text_or_placeholder reply). rewrite Hb.
  rewrite new_ResearchPlan_fallback.
  main_cases; cbn [snd];
    rewrite !evaluated_app, !plans_shown_app; cbn [evaluated plans_shown];
    rewrite ?app_nil_r; split; reflexivity.
Qed.

Lemma X12_main_evaluates_only_braced_text_witness :
  evaluated (snd (Main.run_research (P := pydantic_strict)
                    (Scenario.answering (py "Here is a plan: {1}")
                       (py "Some text.") (Return JNull))
                    (py "cats") Scenario.main_defaults []))
  = evaluated []
  /\ plans_shown (snd (Main.run_research (P := pydantic_strict)
                         (Scenario.answering (py "Here is a plan: {1}")
                            (py "Some text.") (Return JNull))
                         (py "cats") Scenario.main_defaults []))
     = plans_shown [] ++ [fallback_plan (py "cats")].
Proof.
  apply (@X12_main_evaluates_only_braced_text
           (Scenario.answering (py "Here is a plan: {1}") (py "Some text.")
              (Return JNull))
           pydantic_strict (py "cats") (Some (py "Here is a plan: {1}")));
    reflexivity.
Defined.

(** X13. When no call of the model service raises and the triage reply,
    stripped, does not start with an opening brace, a run of [main.py]
    returns after exactly three calls of the service and evaluates
    nothing: it leaves one finding labelled [Gemini Research], a non-empty
    report and the session marked done. *)
Theorem X13_main_run_completes_without_eval
        (env : Env) {P : Pydantic} (topic : str)
        (st : Main.Session) (tr : list Event) :
  (forall h m p, exists reply, service env h m p = Return reply) ->
  skips_eval env topic tr ->
  exists st' tr' f r,
    Main.run_research env topic st tr = (Return tt, st', tr')
    /\ calls_made tr' = calls_made tr + 3
    /\ evaluated tr' = evaluated tr
    /\ Main.collected_facts st' = [f]
    /\ source f = py "Gemini Research"
    /\ Main.report_result st' = Some r /\ r <> []
    /\ Main.research_done st' = true.
Proof.
  intros Hup. unfold skips_eval.
  unfold Main.run_research, Main.run. run_step.
  change (model_name Main.triage_agent) with gemini_flash.
  fold (main_triage_prompt topic).
  destruct (Hup tr gemini_flash (main_triage_prompt topic)) as [reply E].
  rewrite E. fold (text_or_placeholder reply). intros ->.
  rewrite new_ResearchPlan_fallback.
  repeat (match goal with
          | |- context [service env ?h ?m ?p] =>
              let E := fresh "E" in
              destruct (Hup h m p) as [? E]; rewrite E; clear E
          end; cbv beta iota).
  do 4 eexists. split; [reflexivity|].
  split; [rewrite !calls_made_app; cbn [calls_made]; lia|].
  split; [rewrite !evaluated_app; cbn [evaluated];
          rewrite ?app_nil_r; reflexivity|].
  cbn. repeat split; apply text_or_no_response.
Qed.

Lemma X13_main_run_completes_without_eval_witness :
  exists st' tr' f r,
    Main.run_research (P := pydantic_strict)
                      (Scenario.answering (py "Here is a plan: {1}")
                         (py "Some text.") (Return JNull))
                      (py "cats") Scenario.main_defaults []
    = (Return tt, st', tr')
    /\ calls_made tr' = calls_made [] + 3
    /\ evaluated tr' = evaluated []
    /\ Main.collected_facts st' = [f]
    /\ source f = py "Gemini Research"
    /\ Main.report_result st' = Some r /\ r <> []
    /\ Main.research_done st' = true.
Proof.
  apply X13_main_run_completes_without_eval.
  - intros h m p. unfold Scenario.answering, service.
    destruct (Scenario.is_triage_prompt p); eexists; reflexivity.
  - reflexivity.
Defined.

(* ================================================================== *)
(** * The session dictionary *)
(* ================================================================== *)

Module SessionFacts.
Import SessionState.

Lemma str_eqb_eq (a b : str) : str_eqb a b = true <-> a = b.
Proof.
  revert b. induction a as [|x a IH]; intros [|y b]; simpl;
    try (split; [discriminate|discriminate]); [tauto|].
  unfold char_eqb. rewrite andb_true_iff, N.eqb_eq, IH.
  split; [intros [-> ->]; reflexivity | intros H; injection H; auto].
Qed.

Lemma str_eqb_refl (a : str) : str_eqb a a = true.
Proof. apply str_eqb_eq. reflexivity. Qed.

Lemma str_eqb_neq (a b : str) : str_eqb a b = false <-> a <> b.
Proof.
  rewrite <- str_eqb_eq. destruct (str_eqb a b); split; congruence.
Qed.

Lemma lookup_assign (d : state) (k k' : str) (v : value) :
  lookup (assign d k v) k' = if str_eqb k k' then Some v else lookup d k'.
Proof.
  induction d as [|[k0 v0] d IH]; simpl.
  - reflexivity.
  - destruct (str_eqb k0 k) eqn:E0; simpl.
    + apply str_eqb_eq in E0. subst k0.
      destruct (str_eqb k k'); reflexivity.
    + destruct (str_eqb k0 k') eqn:E1.
      * apply str_eqb_eq in E1. subst k'.
        replace (str_eqb k k0) with false; auto.
        symmetry. apply str_eqb_neq. apply str_eqb_neq in E0. congruence.
      * exact IH.
Qed.

Lemma keys_assign_present (d : state) (k : str) (v : value) :
  mem d k = true -> keys (assign d k v) = keys d.
Proof.
  unfold mem, keys. induction d as [|[k0 v0] d IH]; simpl.
  - discriminate.
  - destruct (str_eqb k0 k) eqn:E; simpl; [reflexivity|].
    intros H. rewrite IH by exact H. reflexivity.
Qed.

Lemma init_lookup (defaults st : state) (k : str) :
  lookup (init_session_state defaults st) k
  = match lookup st k with
    | Some v => Some v
    | None => lookup defaults k
    end.
Proof.
  unfold init_session_state. revert st.
  induction defaults as [|[k0 v0] d IH]; intros st; simpl.
  - destruct (lookup st k); reflexivity.
  - rewrite IH. unfold mem.
    destruct (lookup st k0) as [w|] eqn:E0.
    + destruct (lookup st k) eqn:Ek; auto.
      destruct (str_eqb k0 k) eqn:E; auto.
      apply str_eqb_eq in E. subst k0. congruence.
    + rewrite lookup_assign.
      destruct (str_eqb k0 k) eqn:E.
      * apply str_eqb_eq in E. subst k0. rewrite E0. reflexivity.
      * reflexivity.
Qed.

Lemma init_fixed (defaults st : state) :
  (forall k, In k (keys defaults) -> mem st k = true) ->
  init_session_state defaults st = st.
Proof.
  unfold init_session_state. revert st.
  induction defaults as [|[k0 v0] d IH]; intros st H; simpl; auto.
  rewrite (H k0) by (left; reflexivity).
  apply IH. intros k Hk. apply H. right. exact Hk.
Qed.

Lemma lookup_in_keys (d : state) (k : str) :
  In k (keys d) -> mem d k = true.
Proof.
  unfold mem, keys. induction d as [|[k0 v0] d IH]; simpl; [tauto|].
  intros [->|H].
  - rewrite str_eqb_refl. reflexivity.
  - destruct (str_eqb k0 k); auto.
Qed.

(** X14. The loop that fills the session from [defaults] never overwrites:
    a key the session holds keeps its value, and a key it lacks takes the
    value of [defaults] when there is one. *)
Theorem X14_init_keeps_what_the_session_holds
        (defaults st : state) (k : str) :
  lookup (init_session_state defaults st) k
  = match lookup st k with
    | Some v => Some v
    | None => lookup defaults k
    end.
Proof. apply init_lookup. Qed.

(** X15. Filling the session twice is filling it once, even with the
    fresh [defaults] of a later run of the script (the same keys, other
    values): after the first filling every key of [defaults] is there, and
    a rerun changes nothing, the conversation identifier included. *)
Theorem X15_init_is_stable_under_rerun
        (defaults later st : state) :
  keys later = keys defaults ->
  init_session_state later (init_session_state defaults st)
  = init_session_state defaults st.
Proof.
  intros Hk. apply init_fixed. intros k Hin. rewrite Hk in Hin.
  apply lookup_in_keys in Hin. unfold mem in *.
  rewrite init_lookup.
  destruct (lookup st k); auto.
Qed.

Lemma X15_init_is_stable_under_rerun_witness :
  init_session_state (app_defaults (py "ffffffffffffffffffffffffffffffff"))
    (init_session_state
       (app_defaults (py "0123456789abcdef0123456789abcdef"))
       [(py "research_done", VBool true)])
  = init_session_state
      (app_defaults (py "0123456789abcdef0123456789abcdef"))
      [(py "research_done", VBool true)].
Proof.
  apply X15_init_is_stable_under_rerun. reflexivity.
Defined.

Lemma clear_fold (defaults : state) (ks : list str) (st : state) :
  (forall x, In x ks -> mem st x = true) ->
  let st' := fold_left (fun st k =>
                          match lookup defaults k with
                          | Some v => assign st k v
                          | None => st
                          end) ks st in
  keys st' = keys st
  /\ forall k,
      lookup st' k
      = match lookup st k with
        | Some v =>
            Some (if existsb (fun x => str_eqb x k) ks
                  then match lookup defaults k with
                       | Some dv => dv
                       | None => v
                       end
                  else v)
        | None => None
        end.
Proof.
  revert st. induction ks as [|x ks IH]; intros st Hin; cbn [fold_left].
  - split; [reflexivity|]. intros k. simpl. destruct (lookup st k); reflexivity.
  - set (st1 := match lookup defaults x with
                | Some v => assign st x v
                | None => st
                end).
    assert (Hx : mem st x = true) by (apply Hin; left; reflexivity).
    assert (K1 : keys st1 = keys st).
    { unfold st1. destruct (lookup defaults x);
        [apply keys_assign_present; exact Hx | reflexivity]. }
    assert (L1 : forall k,
               lookup st1 k
               = match lookup st k with
                 | Some v =>
                     Some (if str_eqb x k
                           then match lookup defaults k with
                                | Some dv => dv
                                | None => v
                                end
                           else v)
                 | None => None
                 end).
    { intros k. unfold st1.
      destruct (lookup defaults x) as [dv|] eqn:Ed.
      - rewrite lookup_assign. destruct (str_eqb x k) eqn:E.
        + apply str_eqb_eq in E. subst k. rewrite Ed.
          unfold mem in Hx. destruct (lookup st x); [reflexivity|discriminate].
        + destruct (lookup st k); reflexivity.
      - destruct (lookup st k) eqn:Ek; auto.
        destruct (str_eqb x k) eqn:E; auto.
        apply str_eqb_eq in E. subst k. rewrite Ed. reflexivity. }
    destruct (IH st1) as [K2 L2].
    { intros y Hy. unfold mem. rewrite L1.
      assert (Hm : mem st y = true) by (apply Hin; right; exact Hy).
      unfold mem in Hm. destruct (lookup st y); [reflexivity|discriminate]. }
    split; [rewrite K2; exact K1|].
    intros k. rewrite L2, L1. cbn [existsb].
    destruct (lookup st k) as [v|]; auto.
    destruct (str_eqb x k) eqn:E; cbn [orb];
      destruct (existsb (fun x0 => str_eqb x0 k) ks);
      destruct (lookup defaults k); reflexivity.
Qed.

Lemma existsb_keys (st : state) (k : str) :
  existsb (fun x => str_eqb x k) (keys st)
  = match lookup st k with Some _ => true | None => false end.
Proof.
  unfold keys. induction st as [|[k0 v0] st IH]; simpl; auto.
  destruct (str_eqb k0 k); simpl; auto.
Qed.

Lemma clear_spec (defaults st : state) :
  keys (clear_session defaults st) = keys st
  /\ forall k,
      lookup (clear_session defaults st) k
      = match lookup st k with
        | Some v => Some match lookup defaults k with
                         | Some dv => dv
                         | None => v
                         end
        | None => None
        end.
Proof.
  unfold clear_session.
  destruct (clear_fold defaults (keys st) st) as [K L].
  { intros x Hx. apply lookup_in_keys. exact Hx. }
  split; [exact K|].
  intros k. rewrite L, existsb_keys. destruct (lookup st k); reflexivity.
Qed.

(** X16. Clear Session resets what it knows and nothing else: the session
    keeps its keys, in their order; a key of [defaults] that the session
    holds takes the value of [defaults]; every other key of the session
    keeps its value; and a key the session lacks is not added. *)
Theorem X16_clear_resets_default_keys_only (defaults st : state) (k : str) :
  keys (clear_session defaults st) = keys st
  /\ lookup (clear_session defaults st) k
     = match lookup st k with
       | Some v => Some match lookup defaults k with
                        | Some dv => dv
                        | None => v
                        end
       | None => None
       end.
Proof.
  destruct (clear_spec defaults st) as [K L]. split; [exact K|apply L].
Qed.

(** X17. In [app.py], after the session was filled by an earlier run of
    the script, Clear Session puts the five keys back to the defaults of
    the present run, whatever the session held: the report tab shows
    nothing, and the conversation identifier is the new one, where a mere
    rerun would have kept the old one. *)
Theorem X17_clear_after_init_restores_defaults
        (earlier_uuid uuid_hex : str) (st : state) (k : str) :
  let filled := init_session_state (app_defaults earlier_uuid) st in
  let cleared := clear_session (app_defaults uuid_hex) filled in
  (In k (keys (app_defaults uuid_hex)) ->
   lookup cleared k = lookup (app_defaults uuid_hex) k)
  /\ report_shown cleared = false
  /\ lookup cleared (py "conversation_id")
     = Some (VStr (new_conversation_id uuid_hex))
  /\ lookup (init_session_state (app_defaults uuid_hex) filled)
            (py "conversation_id")
     = lookup filled (py "conversation_id").
Proof.
  intros filled cleared.
  destruct (clear_spec (app_defaults uuid_hex) filled) as [_ L].
  fold cleared in L.
  assert (Hin : forall x, In x (keys (app_defaults uuid_hex)) ->
                          exists v dv, lookup filled x = Some v
                                       /\ lookup (app_defaults uuid_hex) x
                                          = Some dv).
  { intros x Hx.
    assert (Hd : mem (app_defaults uuid_hex) x = true)
      by (apply lookup_in_keys; exact Hx).
    assert (He : mem (app_defaults earlier_uuid) x = true)
      by (apply lookup_in_keys; exact Hx).
    unfold mem in Hd, He. unfold filled. rewrite init_lookup.
    destruct (lookup (app_defaults uuid_hex) x) as [dv|]; [|discriminate].
    destruct (lookup st x) as [v|].
    - exists v, dv. auto.
    - destruct (lookup (app_defaults earlier_uuid) x) as [v|]; [|discriminate].
      exists v, dv. auto. }
  assert (Hk : forall x, In x (keys (app_defaults uuid_hex)) ->
                         lookup cleared x = lookup (app_defaults uuid_hex) x).
  { intros x Hx. destruct (Hin x Hx) as (v & dv & Hv & Hdv).
    rewrite L, Hv, Hdv. reflexivity. }
  split; [apply Hk|]. split; [|split].
  - unfold report_shown. rewrite (Hk (py "research_done")).
    + reflexivity.
    + simpl. auto.
  - rewrite (Hk (py "conversation_id")); [reflexivity | simpl; auto].
  - rewrite init_lookup.
    destruct (Hin (py "conversation_id")) as (v & dv & Hv & _);
      [simpl; auto|].
    rewrite Hv. reflexivity.
Qed.
End SessionFacts.
